(** * Spatial-Understanding-ETL: the normalisation and unification pipeline

    A shallow embedding of [real_demo.py].

    - Python floats are IEEE-754 binary64 values, carried as the Standard
      Library's [spec_float] (sign, 53-bit mantissa, exponent).
    - [/] on two ints is Python's true division: the quotient of the two
      integers, correctly rounded (ties to even) to a binary64.
    - [round(x, ndigits)] is Python's correctly rounded decimal rounding: the
      exact binary value of [x] is rounded, ties to even, to [ndigits]
      decimals, and the decimal is read back as the nearest binary64.
    - Pixel coordinates are Python ints (as in [REAL_SAMPLES]); the payload
      of a sample is a tree of ints and lists, so that ill-shaped payloads
      raise the exception Python raises.
    - Exceptions are values of an error monad: those the program's own
      statements raise by their class, those raised inside the plotting
      library as [PlotError] with the name of their class. [print] calls are
      not modelled.
    - The image source and the plotting library are outside the program:
      they are parameters of the pipeline, and each may fail. *)

From Stdlib Require Import ZArith List String Ascii Bool Lia.
From Stdlib Require Import Floats.SpecFloat.
From Stdlib Require Import DecimalString.
Import ListNotations.

Local Open Scope Z_scope.

Set Warnings "-register-all".

(** ** Exceptions *)

Inductive exn : Type :=
| ValueError
| IndexError
| TypeError
| KeyError
| ZeroDivisionError
| OverflowError
| UnboundLocalError
| PlotError (cls : string).

Inductive result (A : Type) : Type :=
| Ok (a : A)
| Raise (e : exn).

Arguments Ok {A} a.
Arguments Raise {A} e.

Definition bind {A B : Type} (m : result A) (k : A -> result B) : result B :=
  match m with
  | Ok a => k a
  | Raise e => Raise e
  end.

Notation "x <- m ;; k" := (bind m (fun x => k))
  (at level 61, m at next level, right associativity).

(** ** Binary64 arithmetic *)

Module Float.

Definition prec : Z := 53.
Definition emax : Z := 1024.

(** Smallest exponent of a binary64 mantissa, and the largest. *)
Definition emin : Z := -1074.
Definition etop : Z := 971.

(** [n / d] rounded to the nearest integer, ties to even ([0 <= n], [0 < d]). *)
Definition div_half_even (n d : Z) : Z :=
  let q := n / d in
  let r := n mod d in
  match 2 * r ?= d with
  | Lt => q
  | Gt => q + 1
  | Eq => if Z.even q then q else q + 1
  end.

(** [floor (log2 (n / d))] for [0 < n], [0 < d]. *)
Definition floor_log2_ratio (n d : Z) : Z :=
  let s := Z.log2 n - Z.log2 d in
  if n * 2 ^ Z.max 0 (- s) <? d * 2 ^ Z.max 0 s then s - 1 else s.

(** The binary64 nearest to the rational [n / d] ([0 <= n], [0 < d]),
    ties to even, with sign [s]; an infinity when it is out of range. *)
Definition round_ratio (s : bool) (n d : Z) : spec_float :=
  if n =? 0 then S754_zero s
  else
    let e := Z.max (floor_log2_ratio n d - 52) emin in
    let m := div_half_even (n * 2 ^ Z.max 0 (- e)) (d * 2 ^ Z.max 0 e) in
    let '(m, e) := if m =? 2 ^ prec then (2 ^ 52, e + 1) else (m, e) in
    match m with
    | Z.pos p => if e <=? etop then S754_finite s p e else S754_infinity s
    | _ => S754_zero s
    end.

(** [x / w] for two ints. *)
Definition int_truediv (x w : Z) : result spec_float :=
  if w =? 0 then Raise ZeroDivisionError
  else
    match round_ratio (xorb (x <? 0) (w <? 0)) (Z.abs x) (Z.abs w) with
    | S754_infinity _ => Raise OverflowError
    | f => Ok f
    end.

(** [round(x, ndigits)] for a float [x] and an int [ndigits]. *)
Definition py_round (x : spec_float) (ndigits : Z) : result spec_float :=
  match x with
  | S754_finite s m e =>
      if 323 <? ndigits then Ok x
      else if ndigits <? -308 then Ok (S754_zero s)
      else
        let k := div_half_even
                   (Z.pos m * 2 ^ Z.max 0 e * 10 ^ Z.max 0 ndigits)
                   (2 ^ Z.max 0 (- e) * 10 ^ Z.max 0 (- ndigits)) in
        match round_ratio s (k * 10 ^ Z.max 0 (- ndigits))
                          (10 ^ Z.max 0 ndigits) with
        | S754_infinity _ => Raise OverflowError
        | f => Ok f
        end
  | _ => Ok x
  end.

(** The float a decimal literal [k * 10^-p] denotes, e.g. [lit 536 3] for
    [0.536]. *)
Definition lit (k p : Z) : spec_float :=
  round_ratio (k <? 0) (Z.abs k * 10 ^ Z.max 0 (- p)) (10 ^ Z.max 0 p).

(** [|f| <= 2^B], for a float in canonical form. *)
Definition below (B : Z) (f : spec_float) : Prop :=
  match f with
  | S754_zero _ => True
  | S754_finite _ m e => e <= Z.max (B - 52) emin /\ Z.pos m <= 2 ^ (B - e)
  | _ => False
  end.

Definition sign (f : spec_float) : bool :=
  match f with
  | S754_zero s | S754_infinity s | S754_finite s _ _ => s
  | S754_nan => false
  end.

Definition zero : spec_float := S754_zero false.
Definition one : spec_float := SFone prec emax.

(** [a <= b] on floats. *)
Definition leb (a b : spec_float) : bool := SFleb a b.

End Float.

(** ** [repr] of ints and floats *)

Module Repr.

Local Infix "+++" := String.append (at level 60, right associativity).

(** [str(x)] for an int. *)
Definition int_repr (x : Z) : string := NilZero.string_of_int (Z.to_int x).

(** [n] copies of the character zero. *)
Fixpoint zeros (n : nat) : string :=
  match n with
  | O => EmptyString
  | S n' => String "0" (zeros n')
  end.

(** The string from index [n] on, and the string up to it. *)
Fixpoint drop (n : nat) (s : string) : string :=
  match n, s with
  | O, _ => s
  | S n', String _ s' => drop n' s'
  | S _, EmptyString => EmptyString
  end.

Fixpoint take (n : nat) (s : string) : string :=
  match n, s with
  | O, _ => EmptyString
  | S n', String c s' => String c (take n' s')
  | S _, EmptyString => EmptyString
  end.

(** The least [k], from a start [k] on, with [num / den < 10^k]. The search
    is started just below [log10 (num / den)], estimated from the binary
    logarithm ([log10 2] is 0.30103 to five places). *)
Fixpoint find_decpt (fuel : nat) (num den k : Z) : Z :=
  match fuel with
  | O => k
  | S fuel' =>
      if num * 10 ^ Z.max 0 (- k) <? den * 10 ^ Z.max 0 k then k
      else find_decpt fuel' num den (k + 1)
  end.

(** The shortest decimal [c * 10^p] that reads back as the float [m * 2^e]:
    for 1, 2, ... 17 digits, the two decimals of that many digits around the
    float are tried; the one inside the rounding interval of the float, and
    nearer to it, is kept. The interval ends halfway to the two neighbouring
    floats, and contains its ends when [m] is even. *)
Fixpoint shortest (fuel : nat) (n : Z) (v lo hi num den k : Z) (closed : bool)
  : Z * Z :=
  let p := k - n in
  let a := num * 10 ^ Z.max 0 (- p) in
  let b := den * 10 ^ Z.max 0 p in
  let c_lo := (v * a) / b in
  let c_hi := c_lo + 1 in
  let fits c :=
    if closed then (lo * a <=? c * b) && (c * b <=? hi * a)
    else (lo * a <? c * b) && (c * b <? hi * a) in
  let nearest :=
    match v * a - c_lo * b ?= c_hi * b - v * a with
    | Lt => c_lo
    | Gt => c_hi
    | Eq => if Z.even c_lo then c_lo else c_hi
    end in
  match fuel with
  | O => (nearest, p)
  | S fuel' =>
      match fits c_lo, fits c_hi with
      | true, true => (nearest, p)
      | true, false => (c_lo, p)
      | false, true => (c_hi, p)
      | false, false => shortest fuel' (n + 1) v lo hi num den k closed
      end
  end.

(** Trailing zeros of [c] moved into the exponent. *)
Fixpoint strip (fuel : nat) (c p : Z) : Z * Z :=
  match fuel with
  | O => (c, p)
  | S fuel' =>
      if (c mod 10 =? 0) && negb (c =? 0) then strip fuel' (c / 10) (p + 1)
      else (c, p)
  end.

(** The digits of the shortest decimal of a finite positive float and the
    position of its decimal point: the float reads [0.d1d2... * 10^decpt]. *)
Definition float_digits (m : positive) (e : Z) : string * Z :=
  let sh := e - 2 in
  let num := 2 ^ Z.max 0 sh in
  let den := 2 ^ Z.max 0 (- sh) in
  let v := 4 * Z.pos m in
  let hi := v + 2 in
  let lo := if (Z.pos m =? 2 ^ 52) && (Float.emin <? e) then v - 1 else v - 2 in
  let k0 := (Z.log2 (Z.pos m) + e) * 30103 / 100000 - 1 in
  let k := find_decpt 8 (v * num) den k0 in
  let '(c, p) := shortest 16 1 v lo hi num den k (Z.even (Z.pos m)) in
  let '(c, p) := strip 20 c p in
  let ds := int_repr c in
  (ds, p + Z.of_nat (String.length ds)).

(** The exponent of the scientific notation: a sign and two digits at
    least. *)
Definition exponent_repr (x : Z) : string :=
  let ds := int_repr (Z.abs x) in
  (if x <? 0 then "-" else "+")
  +++ (if (String.length ds <? 2)%nat then "0" +++ ds else ds).

(** [repr(f)] for a float, as [float.__repr__] formats it. *)
Definition float_repr (f : spec_float) : string :=
  match f with
  | S754_zero s => if s then "-0.0" else "0.0"
  | S754_infinity s => if s then "-inf" else "inf"
  | S754_nan => "nan"
  | S754_finite s m e =>
      let '(ds, decpt) := float_digits m e in
      let n := String.length ds in
      let body :=
        if (-4 <? decpt) && (decpt <=? 16) then
          if decpt <=? 0 then "0." +++ zeros (Z.to_nat (- decpt)) +++ ds
          else if (Z.of_nat n <=? decpt) then
            ds +++ zeros (Z.to_nat decpt - n) +++ ".0"
          else take (Z.to_nat decpt) ds +++ "." +++ drop (Z.to_nat decpt) ds
        else
          take 1 ds
          +++ (if (1 <? n)%nat then "." +++ drop 1 ds else "")
          +++ "e" +++ exponent_repr (decpt - 1) in
      (if s then "-" else "") +++ body
  end.

End Repr.

(** ** Payloads and normalised values *)

(** A raw payload: pixel coordinates are ints, grouped in lists. *)
Inductive raw : Type :=
| RInt (x : Z)
| RList (l : list raw).

(** What [normalize_coords] returns: floats grouped in lists, or [None]. *)
Inductive value : Type :=
| VNone
| VFloat (f : spec_float)
| VList (l : list value).

(** [v / w], for an int [w]. *)
Definition truediv (v : raw) (w : Z) : result spec_float :=
  match v with
  | RInt x => Float.int_truediv x w
  | RList _ => Raise TypeError
  end.

(** [a + b]. *)
Definition add (a b : raw) : result raw :=
  match a, b with
  | RInt x, RInt y => Ok (RInt (x + y))
  | RList l1, RList l2 => Ok (RList (l1 ++ l2))
  | _, _ => Raise TypeError
  end.

(** [v[i]]. *)
Definition getitem (v : raw) (i : nat) : result raw :=
  match v with
  | RInt _ => Raise TypeError
  | RList l =>
      match nth_error l i with
      | Some x => Ok x
      | None => Raise IndexError
      end
  end.

(** [round(v / w, 3)]. *)
Definition round3_div (v : raw) (w : Z) : result value :=
  q <- truediv v w ;;
  r <- Float.py_round q 3 ;;
  Ok (VFloat r).

(** A list comprehension whose body may raise. *)
Fixpoint comprehension {A B : Type} (f : A -> result B) (l : list A)
  : result (list B) :=
  match l with
  | [] => Ok []
  | a :: l' =>
      b <- f a ;;
      bs <- comprehension f l' ;;
      Ok (b :: bs)
  end.

(** ** [normalize_coords] *)

Definition normalize_coords (coords : raw) (w h : Z) (type : string)
  : result value :=
  if String.eqb type "bbox" then
    match coords with
    | RInt _ => Raise TypeError
    | RList [x; y; bw; bh] =>
        x1 <- round3_div x w ;;
        y1 <- round3_div y h ;;
        xr <- add x bw ;;
        x2 <- round3_div xr w ;;
        yb <- add y bh ;;
        y2 <- round3_div yb h ;;
        Ok (VList [x1; y1; x2; y2])
    | RList _ => Raise ValueError
    end
  else if String.eqb type "point" then
    c0 <- getitem coords 0 ;;
    x1 <- round3_div c0 w ;;
    c1 <- getitem coords 1 ;;
    y1 <- round3_div c1 h ;;
    Ok (VList [x1; y1])
  else if String.eqb type "trajectory" then
    match coords with
    | RInt _ => Raise TypeError
    | RList ps =>
        out <- comprehension
                 (fun p =>
                    p0 <- getitem p 0 ;;
                    x1 <- round3_div p0 w ;;
                    p1 <- getitem p 1 ;;
                    y1 <- round3_div p1 h ;;
                    Ok (VList [x1; y1]))
                 ps ;;
        Ok (VList out)
    end
  else Ok VNone.

(** [round(x / w, 3)] on an int [x]. *)
Definition round3 (x w : Z) : result spec_float :=
  q <- Float.int_truediv x w ;;
  Float.py_round q 3.

(** [0.0 <= v <= 1.0] for every scalar of a normalised value. *)
Fixpoint in_unit (v : value) : bool :=
  match v with
  | VNone => true
  | VFloat f => Float.leb Float.zero f && Float.leb f Float.one
  | VList l => forallb in_unit l
  end.

(** The payload [[x, y]] of a point, and [[[x, y], ...]] of a trajectory. *)
Definition point_payload (xy : Z * Z) : raw :=
  RList [RInt (fst xy); RInt (snd xy)].

Definition trajectory_payload (pts : list (Z * Z)) : raw :=
  RList (map point_payload pts).

(** ** [str] and [json.dumps] *)

Definition quote : ascii := "034"%char.
Definition backslash : ascii := "092"%char.
Definition newline : ascii := "010"%char.

Local Infix "+++" := String.append (at level 60, right associativity).

(** [", ".join(l)]. *)
Fixpoint join (l : list string) : string :=
  match l with
  | [] => EmptyString
  | x :: l' =>
      match l' with
      | [] => x
      | _ :: _ => x +++ ", " +++ join l'
      end
  end.

(** [str(v)] of a normalised value, as the f-strings format it. *)
Fixpoint str (v : value) : string :=
  match v with
  | VNone => "None"
  | VFloat f => Repr.float_repr f
  | VList l => "[" +++ join (map str l) +++ "]"
  end.

(** A JSON document; the members of an object keep their insertion order. *)
Inductive json : Type :=
| JNull
| JInt (x : Z)
| JFloat (f : spec_float)
| JString (s : string)
| JArray (l : list json)
| JObject (members : list (string * json)).

Definition hex_digit (n : nat) : ascii :=
  if (n <? 10)%nat then ascii_of_nat (48 + n) else ascii_of_nat (87 + n).

(** One character of a JSON string, with [ensure_ascii]: a character is a
    code point below 256. *)
Definition encode_char (c : ascii) : string :=
  let n := nat_of_ascii c in
  if Ascii.eqb c quote then String backslash (String quote EmptyString)
  else if Ascii.eqb c backslash then
    String backslash (String backslash EmptyString)
  else if (n =? 10)%nat then String backslash "n"
  else if (n =? 13)%nat then String backslash "r"
  else if (n =? 9)%nat then String backslash "t"
  else if (n =? 8)%nat then String backslash "b"
  else if (n =? 12)%nat then String backslash "f"
  else if ((32 <=? n) && (n <=? 126))%nat then String c EmptyString
  else
    String backslash
      (String "u" (String "0" (String "0"
         (String (hex_digit (n / 16)) (String (hex_digit (n mod 16))
            EmptyString))))).

Fixpoint encode_chars (s : string) : string :=
  match s with
  | EmptyString => EmptyString
  | String c s' => encode_char c +++ encode_chars s'
  end.

Definition encode_string (s : string) : string :=
  String quote (encode_chars s +++ String quote EmptyString).

(** A float in a JSON document ([allow_nan] is on). *)
Definition encode_float (f : spec_float) : string :=
  match f with
  | S754_nan => "NaN"
  | S754_infinity s => if s then "-Infinity" else "Infinity"
  | _ => Repr.float_repr f
  end.

(** [json.dumps(j)] with the default separators. *)
Fixpoint dumps (j : json) : string :=
  match j with
  | JNull => "null"
  | JInt x => Repr.int_repr x
  | JFloat f => encode_float f
  | JString s => encode_string s
  | JArray l => "[" +++ join (map dumps l) +++ "]"
  | JObject members =>
      "{"
      +++ join (map (fun kv => encode_string (fst kv) +++ ": "
                               +++ dumps (snd kv)) members)
      +++ "}"
  end.

Fixpoint value_json (v : value) : json :=
  match v with
  | VNone => JNull
  | VFloat f => JFloat f
  | VList l => JArray (map value_json l)
  end.

(** The lines of a text: each ends at a newline; what follows the last
    newline, when not empty, is a last line. *)
Fixpoint lines (s : string) : list string :=
  match s with
  | EmptyString => []
  | String c s' =>
      if Ascii.eqb c newline then EmptyString :: lines s'
      else
        match lines s' with
        | [] => [String c EmptyString]
        | l :: ls => String c l :: ls
        end
  end.

Fixpoint no_newline (s : string) : bool :=
  match s with
  | EmptyString => true
  | String c s' => negb (Ascii.eqb c newline) && no_newline s'
  end.

(** ** Samples and unified records *)

Record sample : Type := {
  item_id : string;
  item_url : string;
  item_task_type : string;
  item_label : string;
  item_data : list (string * raw);
  item_instruction : string
}.

Definition bbox_cat : sample :=
  {| item_id := "task_bbox_cat";
     item_url := "http://images.cocodataset.org/val2017/000000039769.jpg";
     item_task_type := "detection";
     item_label := "cat";
     item_data := [("bbox"%string,
                    RList [RInt 14; RInt 3; RInt 310; RInt 477])];
     item_instruction := "Detect the cat." |}.

Definition traj_skier : sample :=
  {| item_id := "task_traj_skier";
     item_url := "http://images.cocodataset.org/val2017/000000000785.jpg";
     item_task_type := "trajectory";
     item_label := "skier_path";
     item_data := [("points"%string,
                    trajectory_payload
                      [(250, 20); (260, 100); (280, 200); (300, 300);
                       (220, 350)])];
     item_instruction := "Predict the future trajectory of the skier." |}.

Definition affordance_sign : sample :=
  {| item_id := "task_affordance_sign";
     item_url := "http://images.cocodataset.org/val2017/000000000724.jpg";
     item_task_type := "affordance";
     item_label := "stop_sign_center";
     item_data := [("point"%string, point_payload (343, 202))];
     item_instruction :=
       "Where is the center of the stop sign for interaction?" |}.

Definition REAL_SAMPLES : list sample :=
  [bbox_cat; traj_skier; affordance_sign].

(** A decoded image: only its size is used. *)
Record image : Type := { size : Z * Z }.

Record annotation : Type := {
  ann_type : string;
  ann_value : value;
  ann_label : string
}.

Record message : Type := {
  msg_from : string;
  msg_value : string
}.

Record media : Type := {
  image_size : Z * Z;
  media_url : string
}.

Record entry : Type := {
  entry_id : string;
  entry_source : string;
  entry_task_type : string;
  entry_media : media;
  spatial_annotations : list annotation;
  conversations : list message
}.

(** The dict of a record, key by key in the order the source builds it. *)
Definition annotation_json (a : annotation) : json :=
  JObject [("type"%string, JString (ann_type a));
           ("value"%string, value_json (ann_value a));
           ("label"%string, JString (ann_label a))].

Definition message_json (m : message) : json :=
  JObject [("from"%string, JString (msg_from m));
           ("value"%string, JString (msg_value m))].

Definition entry_json (d : entry) : json :=
  JObject [
    ("id"%string, JString (entry_id d));
    ("source"%string, JString (entry_source d));
    ("task_type"%string, JString (entry_task_type d));
    ("media"%string,
      JObject [("image_size"%string,
                JArray [JInt (fst (image_size (entry_media d)));
                        JInt (snd (image_size (entry_media d)))]);
               ("url"%string, JString (media_url (entry_media d)))]);
    ("spatial_annotations"%string,
      JArray (map annotation_json (spatial_annotations d)));
    ("conversations"%string,
      JArray (map message_json (conversations d)))
  ].

(** [d[key]] on a dict. *)
Fixpoint lookup {A : Type} (d : list (string * A)) (key : string) : result A :=
  match d with
  | [] => Raise KeyError
  | (k, v) :: d' => if String.eqb k key then Ok v else lookup d' key
  end.

(** ** The visualiser *)

(** What is drawn over the image, from the raw pixel coordinates. *)
Inductive overlay : Type :=
| Rectangle (x y w h : raw)
| Polyline (xs ys : list raw)
| Circle (x y : raw)
| NoOverlay.

(** The branch of [visualize_task] on the task type: the payload is unpacked
    into the shape to draw, and the title of the figure is formatted. *)
Definition figure (item : sample) : result (overlay * option string) :=
  let data := item_data item in
  let task := item_task_type item in
  if String.eqb task "detection" then
    b <- lookup data "bbox" ;;
    match b with
    | RInt _ => Raise TypeError
    | RList [x; y; w; h] =>
        Ok (Rectangle x y w h,
            Some ("Task: Detection (BBox) - " +++ item_label item))
    | RList _ => Raise ValueError
    end
  else if String.eqb task "trajectory" then
    points <- lookup data "points" ;;
    match points with
    | RInt _ => Raise TypeError
    | RList ps =>
        xs <- comprehension (fun p => getitem p 0) ps ;;
        ys <- comprehension (fun p => getitem p 1) ps ;;
        Ok (Polyline xs ys,
            Some ("Task: Trajectory (Path) - " +++ item_label item))
    end
  else if String.eqb task "affordance" then
    p <- lookup data "point" ;;
    match p with
    | RInt _ => Raise TypeError
    | RList [x; y] =>
        Ok (Circle x y,
            Some ("Task: Affordance (Interaction Point) - "
                  +++ item_label item))
    | RList _ => Raise ValueError
    end
  else Ok (NoOverlay, None).

(** The plotting library, as [visualize_task] uses it: the calls that draw
    the shape and the title over the image and save the figure under the
    given name ([add_patch], [plt.plot], [plt.title], [plt.savefig]). It
    answers [None] when they all return, and the class of the exception when
    one of them raises: [add_patch] raises OverflowError on a coordinate
    beyond the floats, [plt.savefig] raises FileNotFoundError on a name in a
    directory that does not exist. *)
Definition renderer : Type :=
  image -> overlay -> option string -> string -> option string.

(** [visualize_task]: the payload is unpacked, then drawn and saved; the
    result is the file written and the overlay drawn on it. [plt.figure] and
    [plt.imshow], which precede the unpacking, are taken to return. *)
Definition visualize_task (render : renderer)
  (img : image) (item : sample) (save_name : string)
  : result (string * overlay) :=
  fig <- figure item ;;
  let '(shape, title) := fig in
  match render img shape title save_name with
  | Some cls => Raise (PlotError cls)
  | None => Ok (save_name, shape)
  end.

(** ** The pipeline *)

(** The variables of [run_multimodal_pipeline] that live across iterations:
    the accumulator, the binding of [gpt_resp] (a local of the function, bound
    by the first iteration that assigns it), and the files rendered so far. *)
Record state : Type := {
  unified_data : list entry;
  gpt_resp : option string;
  rendered : list (string * overlay)
}.

Definition initial : state :=
  {| unified_data := []; gpt_resp := None; rendered := [] |}.

(** What the run leaves behind: the JSONL file and the rendered images. *)
Record output : Type := {
  file : string;
  images : list (string * overlay)
}.

(** The branch on the task type: the annotations appended to the entry and
    the binding of [gpt_resp] after it. *)
Definition dispatch (item : sample) (w h : Z) (resp : option string)
  : result (list annotation * option string) :=
  let raw_data := item_data item in
  if String.eqb (item_task_type item) "detection" then
    c <- lookup raw_data "bbox" ;;
    norm_box <- normalize_coords c w h "bbox" ;;
    Ok ([{| ann_type := "bbox"; ann_value := norm_box;
            ann_label := item_label item |}],
        Some ("Found at <box>" +++ str norm_box +++ "</box>."))
  else if String.eqb (item_task_type item) "trajectory" then
    c <- lookup raw_data "points" ;;
    norm_traj <- normalize_coords c w h "trajectory" ;;
    Ok ([{| ann_type := "trajectory"; ann_value := norm_traj;
            ann_label := item_label item |}],
        Some ("Trajectory path: <traj>" +++ str norm_traj +++ "</traj>."))
  else if String.eqb (item_task_type item) "affordance" then
    c <- lookup raw_data "point" ;;
    norm_point <- normalize_coords c w h "point" ;;
    Ok ([{| ann_type := "point"; ann_value := norm_point;
            ann_label := item_label item |}],
        Some ("Interact at point: <point>" +++ str norm_point
              +++ "</point>."))
  else Ok ([], resp).

(** The file the verification image of a sample is saved to. *)
Definition save_name (item : sample) : string :=
  "verify_" +++ item_task_type item +++ ".png".

Section Pipeline.

(** The image source: [None] when the download or the decoding fails. *)
Variable download_image : string -> option image.

(** The plotting library: the class of the exception it raises, if any. *)
Variable render : renderer.

(** One iteration of the loop over the samples. *)
Definition process_item (st : state) (item : sample) : result state :=
  match download_image (item_url item) with
  | None => Ok st
  | Some img =>
      let '(w, h) := size img in
      branch <- dispatch item w h (gpt_resp st) ;;
      let '(anns, resp) := branch in
      r <- match resp with
           | Some r => Ok r
           | None => Raise UnboundLocalError
           end ;;
      let entry :=
        {| entry_id := item_id item;
           entry_source := "coco_simulated";
           entry_task_type := item_task_type item;
           entry_media := {| image_size := (w, h);
                             media_url := item_url item |};
           spatial_annotations := anns;
           conversations :=
             [{| msg_from := "human"; msg_value := item_instruction item |};
              {| msg_from := "gpt"; msg_value := r |}] |} in
      v <- visualize_task render img item (save_name item) ;;
      Ok {| unified_data := unified_data st ++ [entry];
            gpt_resp := Some r;
            rendered := rendered st ++ [v] |}
  end.

Fixpoint loop (st : state) (items : list sample) : result state :=
  match items with
  | [] => Ok st
  | item :: rest =>
      st' <- process_item st item ;;
      loop st' rest
  end.

(** The JSONL text of the accumulated records. *)
Fixpoint jsonl (ds : list entry) : string :=
  match ds with
  | [] => EmptyString
  | d :: ds' =>
      (dumps (entry_json d) +++ String newline EmptyString) +++ jsonl ds'
  end.

(** The pipeline over a list of samples. *)
Definition run (items : list sample) : result output :=
  st <- loop initial items ;;
  Ok {| file := jsonl (unified_data st); images := rendered st |}.

Definition run_multimodal_pipeline : result output := run REAL_SAMPLES.

(** The samples whose download succeeds. *)
Definition fetched (item : sample) : bool :=
  match download_image (item_url item) with
  | Some _ => true
  | None => false
  end.

End Pipeline.

(** ** Vocabulary of the statements *)

(** The quotient [x / w] is within the range of a binary64. *)
Definition in_range (x w : Z) : Prop := Z.abs x <= w * 2 ^ 1023.

Definition within (c dim : Z) : bool := (0 <=? c) && (c <=? dim).

(** Every component of the payload, taken as it is written, lies between 0
    and the image dimension of its axis. *)
Definition components_inside (type : string) (coords : raw) (w h : Z) : bool :=
  let pair_inside p :=
    match p with
    | RList [RInt x; RInt y] => within x w && within y h
    | _ => false
    end in
  if String.eqb type "bbox" then
    match coords with
    | RList [RInt x; RInt y; RInt bw; RInt bh] =>
        within x w && within y h && within bw w && within bh h
    | _ => false
    end
  else if String.eqb type "point" then pair_inside coords
  else if String.eqb type "trajectory" then
    match coords with
    | RList ps => forallb pair_inside ps
    | RInt _ => false
    end
  else false.

(** The payload has the shape of its kind ([[x, y, bw, bh]], [[x, y]] or a
    list of [[x, y]]) and every pixel position it denotes passes [ok] against
    the image dimension of its axis: for a box, both its corners [(x, y)]
    and [(x + bw, y + bh)]. *)
Definition shaped (ok : Z -> Z -> bool) (type : string) (coords : raw)
  (w h : Z) : bool :=
  let pair_ok p :=
    match p with
    | RList [RInt x; RInt y] => ok x w && ok y h
    | _ => false
    end in
  if String.eqb type "bbox" then
    match coords with
    | RList [RInt x; RInt y; RInt bw; RInt bh] =>
        ok x w && ok y h && ok (x + bw) w && ok (y + bh) h
    | _ => false
    end
  else if String.eqb type "point" then pair_ok coords
  else if String.eqb type "trajectory" then
    match coords with
    | RList ps => forallb pair_ok ps
    | RInt _ => false
    end
  else false.

(** Every pixel position of the payload lies inside the image. *)
Definition inside : string -> raw -> Z -> Z -> bool := shaped within.

(** The i-th output pair is the rounding of the i-th input pair. *)
Definition normalized_pair (w h : Z) (xy : Z * Z) (o : value) : Prop :=
  exists a b, round3 (fst xy) w = Ok a /\ round3 (snd xy) h = Ok b /\
              o = VList [VFloat a; VFloat b].

(** The closed set of task types; the kind a task type is normalised with,
    the key of its payload and the marker of its kind in the response. *)
Definition known_task (t : string) : bool :=
  String.eqb t "detection" || String.eqb t "trajectory"
  || String.eqb t "affordance".

Definition kind_of (t : string) : string :=
  if String.eqb t "detection" then "bbox"
  else if String.eqb t "trajectory" then "trajectory"
  else "point".

Definition payload_key (t : string) : string :=
  if String.eqb t "detection" then "bbox"
  else if String.eqb t "trajectory" then "points"
  else "point".

Definition marker (kind : string) : string * string :=
  if String.eqb kind "bbox" then ("<box>"%string, "</box>"%string)
  else if String.eqb kind "trajectory" then ("<traj>"%string, "</traj>"%string)
  else ("<point>"%string, "</point>"%string).

(** The record [d] is the one built for the sample [item]. *)
Definition emitted_for (item : sample) (d : entry) : Prop :=
  entry_id d = item_id item
  /\ entry_task_type d = item_task_type item
  /\ media_url (entry_media d) = item_url item.

(** An image source that serves the three images of [REAL_SAMPLES], with
    the sizes the examples are computed for; every other download fails. *)
Definition example_download (u : string) : option image :=
  if String.eqb u "http://images.cocodataset.org/val2017/000000039769.jpg"
  then Some {| size := (640, 480) |}
  else if
    String.eqb u "http://images.cocodataset.org/val2017/000000000785.jpg"
  then Some {| size := (640, 425) |}
  else if
    String.eqb u "http://images.cocodataset.org/val2017/000000000724.jpg"
  then Some {| size := (375, 500) |}
  else None.

(** A plotting library that draws and saves every figure. *)
Definition example_render : renderer := fun _ _ _ _ => None.

(** A sample of a task type outside the closed set, on the first image. *)
Definition segmentation_sample : sample :=
  {| item_id := "task_mask_cat";
     item_url := "http://images.cocodataset.org/val2017/000000039769.jpg";
     item_task_type := "segmentation";
     item_label := "cat";
     item_data := [("polygon"%string,
                    trajectory_payload [(14, 3); (324, 3); (324, 480)])];
     item_instruction := "Segment the cat." |}.

(** A sample whose image cannot be downloaded. *)
Definition unreachable_sample : sample :=
  {| item_id := "task_bbox_dog";
     item_url := "http://images.cocodataset.org/val2017/missing.jpg";
     item_task_type := "detection";
     item_label := "dog";
     item_data := [("bbox"%string,
                    RList [RInt 10; RInt 20; RInt 30; RInt 40])];
     item_instruction := "Detect the dog." |}.

(** The state after the first sample of [REAL_SAMPLES]. *)
Definition example_state : state :=
  Eval vm_compute in
    match process_item example_download example_render initial bbox_cat with
    | Ok st => st
    | Raise _ => initial
    end.

(** What the run over that sample and [REAL_SAMPLES] leaves behind. *)
Definition example_output : output :=
  Eval vm_compute in
    match
      run example_download example_render (unreachable_sample :: REAL_SAMPLES)
    with
    | Ok out => out
    | Raise _ => {| file := EmptyString; images := [] |}
    end.

(** ** Vocabulary of the further properties *)

(** The decimal [round(x / w, 3)] settles on, counted in thousandths, for
    [0 <= x] and [0 < w]: the quotient as a float, times 1000, rounded to the
    nearest integer, ties to even. *)
Definition thousandths (x w : Z) : Z :=
  match Float.int_truediv x w with
  | Ok (S754_finite _ m e) =>
      Float.div_half_even (Z.pos m * 2 ^ Z.max 0 e * 1000) (2 ^ Z.max 0 (- e))
  | _ => 0
  end.

(** Every float of the list is at most each float after it. *)
Fixpoint ascending (l : list spec_float) : bool :=
  match l with
  | [] => true
  | a :: l' => forallb (Float.leb a) (a :: l') && ascending l'
  end.

(** The floats of the decimals [0.000], [0.001], ... [1.000]. *)
Definition unit_decimals : list spec_float :=
  map (fun i => Float.lit (Z.of_nat i) 3) (seq 0 1001).

(** [P] holds of every scalar of a normalised value. *)
Fixpoint scalars (P : spec_float -> Prop) (v : value) : Prop :=
  match v with
  | VNone => True
  | VFloat f => P f
  | VList l => fold_right (fun v' rest => scalars P v' /\ rest) True l
  end.

(** A printable character of ASCII, from the space to the tilde. *)
Definition printable (c : ascii) : bool :=
  ((32 <=? nat_of_ascii c) && (nat_of_ascii c <=? 126))%nat.

Fixpoint all_chars (P : ascii -> bool) (s : string) : bool :=
  match s with
  | EmptyString => true
  | String c s' => P c && all_chars P s'
  end.

(** A value made of lists and of floats that are numbers: no [None], no
    infinity, no NaN. *)
Fixpoint numeric (v : value) : bool :=
  match v with
  | VNone => false
  | VFloat (S754_zero _) | VFloat (S754_finite _ _ _) => true
  | VFloat _ => false
  | VList l => forallb numeric l
  end.

(* ================================================================== *)
(** * Properties *)

(** ** The float model on known values *)

(** True division of ints agrees with the IEEE-754 division of the Standard
    Library on the converted operands. *)
Example div_343_640 :
  Float.int_truediv 343 640
  = Ok (SFdiv Float.prec Float.emax
          (binary_normalize Float.prec Float.emax 343 0 false)
          (binary_normalize Float.prec Float.emax 640 0 false)).
Proof. vm_compute. reflexivity. Qed.

Example div_1_3 :
  Float.int_truediv 1 3
  = Ok (SFdiv Float.prec Float.emax
          (binary_normalize Float.prec Float.emax 1 0 false)
          (binary_normalize Float.prec Float.emax 3 0 false)).
Proof. vm_compute. reflexivity. Qed.

Example div_subnormal :
  Float.round_ratio false 3 (2 * 2 ^ 1074)
  = SFdiv Float.prec Float.emax
      (binary_normalize Float.prec Float.emax 3 (-1074) false)
      (binary_normalize Float.prec Float.emax 2 0 false).
Proof. vm_compute. reflexivity. Qed.

Example div_by_zero : Float.int_truediv 1 0 = Raise ZeroDivisionError.
Proof. reflexivity. Qed.

Example div_negative_zero : Float.int_truediv 0 (-5) = Ok (S754_zero true).
Proof. reflexivity. Qed.

Example div_overflow : Float.int_truediv (10 ^ 400) 1 = Raise OverflowError.
Proof. vm_compute. reflexivity. Qed.

(** [round(2.675, 2)] is [2.67]: the float below 2.675 is rounded. *)
Example round_2675 :
  Float.py_round (Float.lit 2675 3) 2 = Ok (Float.lit 267 2).
Proof. vm_compute. reflexivity. Qed.

(** [round(1/2000, 3)] is [0.001], [round(125/2000, 3)] is [0.062]: the
    first float is above the tie, the second is the tie and goes to even. *)
Example round_tie_above : round3 1 2000 = Ok (Float.lit 1 3).
Proof. vm_compute. reflexivity. Qed.

Example round_tie_even : round3 125 2000 = Ok (Float.lit 62 3).
Proof. vm_compute. reflexivity. Qed.

Example repr_values :
  map Repr.float_repr
    [Float.lit 1 0; Float.lit 25 2; Float.lit 536 3; Float.lit 1 5;
     Float.lit 1 (-16); Float.lit 5 324;
     SFadd Float.prec Float.emax (Float.lit 1 1) (Float.lit 2 1)]
  = ["1.0"; "0.25"; "0.536"; "1e-05"; "1e+16"; "5e-324";
     "0.30000000000000004"]%string.
Proof. vm_compute. reflexivity. Qed.

Example str_box :
  (v <- normalize_coords (RList [RInt 14; RInt 3; RInt 310; RInt 477])
          640 480 "bbox" ;;
   Ok (str v))
  = Ok "[0.022, 0.006, 0.506, 1.0]"%string.
Proof. vm_compute. reflexivity. Qed.

(** ** Facts on binary64 rounding *)

Section FloatFacts.
Import Float.

Lemma div_half_even_le n d K :
  0 <= n -> 0 < d -> n <= d * K -> div_half_even n d <= K.
Proof.
  intros Hn Hd HK. unfold div_half_even.
  pose proof (Z.div_mod n d ltac:(lia)) as Hdm.
  pose proof (Z.mod_pos_bound n d Hd) as Hr.
  assert (Hq : n / d <= K) by (apply Z.div_le_upper_bound; lia).
  destruct (Z.compare_spec (2 * (n mod d)) d) as [E|E|E].
  - destruct (Z.even (n / d)); nia.
  - lia.
  - nia.
Qed.

Lemma div_half_even_nonneg n d :
  0 <= n -> 0 < d -> 0 <= div_half_even n d.
Proof.
  intros Hn Hd. unfold div_half_even.
  assert (0 <= n / d) by (apply Z.div_pos; lia).
  destruct (2 * (n mod d) ?= d); [destruct (Z.even (n / d))| |]; lia.
Qed.

Lemma floor_log2_ratio_le n d B :
  0 < n -> 0 < d -> 0 <= B -> n <= d * 2 ^ B -> floor_log2_ratio n d <= B.
Proof.
  intros Hn Hd HB Hle. unfold floor_log2_ratio.
  assert (Z.log2 n <= Z.log2 d + B).
  { rewrite Z.add_comm, <- Z.log2_mul_pow2 by lia. apply Z.log2_le_mono. lia. }
  destruct (_ <? _); lia.
Qed.

Lemma pack_below s m e B :
  e <= Z.max (B - 52) emin -> m <= 2 ^ (B - e) -> B <= 1023 ->
  let f := match m with
           | Z.pos p => if e <=? etop then S754_finite s p e
                        else S754_infinity s
           | _ => S754_zero s
           end in
  below B f /\ sign f = s.
Proof.
  intros He Hm HB. unfold emin in He.
  destruct m as [|p|p]; simpl; auto.
  destruct (Z.leb_spec e etop) as [Ht|Ht]; unfold etop in Ht; [|lia].
  simpl. unfold emin. auto.
Qed.

Lemma round_ratio_below s n d B :
  0 <= n -> 0 < d -> 0 <= B <= 1023 -> n <= d * 2 ^ B ->
  below B (round_ratio s n d) /\ sign (round_ratio s n d) = s.
Proof.
  intros Hn Hd HB Hle. unfold round_ratio.
  destruct (Z.eqb_spec n 0) as [->|Hn0]; [simpl; auto|].
  pose proof (floor_log2_ratio_le n d B ltac:(lia) Hd ltac:(lia) Hle) as Hfl.
  set (e := Z.max (floor_log2_ratio n d - 52) emin).
  assert (He : e <= Z.max (B - 52) emin) by (unfold e; lia).
  assert (Hemin : emin <= e) by (unfold e; lia).
  unfold emin in *.
  set (m := div_half_even _ _).
  assert (Hm : m <= 2 ^ (B - e)).
  { apply div_half_even_le.
    - apply Z.mul_nonneg_nonneg; [lia|apply Z.pow_nonneg; lia].
    - apply Z.mul_pos_pos; [lia|apply Z.pow_pos_nonneg; lia].
    - replace (d * 2 ^ Z.max 0 e * 2 ^ (B - e))
        with (d * 2 ^ B * 2 ^ Z.max 0 (- e)).
      + apply Z.mul_le_mono_nonneg_r; [apply Z.pow_nonneg; lia|lia].
      + rewrite <- !Z.mul_assoc, <- !Z.pow_add_r by lia.
        do 2 f_equal. lia. }
  destruct (Z.eqb_spec m (2 ^ prec)) as [Hc|Hc]; cbv iota beta.
  - assert (53 <= B - e).
    { apply (Z.pow_le_mono_r_iff 2); [lia|lia|]. unfold prec in Hc. lia. }
    apply pack_below; [lia|apply (Z.pow_le_mono_r 2); lia|lia].
  - apply pack_below; lia.
Qed.

Lemma int_truediv_below x w B :
  0 < w -> 0 <= B <= 1023 -> Z.abs x <= w * 2 ^ B ->
  exists f, int_truediv x w = Ok f /\ below B f /\ sign f = (x <? 0).
Proof.
  intros Hw HB Hx. unfold int_truediv.
  destruct (Z.eqb_spec w 0); [lia|].
  replace (w <? 0) with false by (symmetry; apply Z.ltb_ge; lia).
  rewrite xorb_false_r. rewrite (Z.abs_eq w) by lia.
  destruct (round_ratio_below (x <? 0) (Z.abs x) w B) as [Hb Hs];
    try lia.
  destruct (round_ratio _ _ _) as [z|z| |z m e]; simpl in *; try tauto; eauto.
Qed.

Lemma py_round3_below f B :
  0 <= B <= 1023 -> below B f ->
  exists g, py_round f 3 = Ok g /\ below B g /\ sign g = sign f.
Proof.
  intros HB Hf. destruct f as [z|z| |z m e]; simpl in Hf; try tauto.
  - exists (S754_zero z). simpl. auto.
  - destruct Hf as [He Hm]. unfold emin in He.
    unfold py_round.
    change (323 <? 3) with false. change (3 <? -308) with false.
    cbv iota. change (Z.max 0 3) with 3. change (Z.max 0 (- 3)) with 0.
    rewrite Z.pow_0_r, !Z.mul_1_r.
    set (k := div_half_even _ _).
    assert (Hk0 : 0 <= k).
    { apply div_half_even_nonneg.
      - repeat apply Z.mul_nonneg_nonneg; try lia; apply Z.pow_nonneg; lia.
      - apply Z.pow_pos_nonneg; lia. }
    assert (Hk : k <= 10 ^ 3 * 2 ^ B).
    { apply div_half_even_le.
      - repeat apply Z.mul_nonneg_nonneg; try lia; apply Z.pow_nonneg; lia.
      - apply Z.pow_pos_nonneg; lia.
      - replace (2 ^ Z.max 0 (- e) * (10 ^ 3 * 2 ^ B))
          with (2 ^ (B - e) * 2 ^ Z.max 0 e * 10 ^ 3).
        + apply Z.mul_le_mono_nonneg_r; [lia|].
          apply Z.mul_le_mono_nonneg_r; [apply Z.pow_nonneg; lia|lia].
        + rewrite <- Z.pow_add_r by lia.
          rewrite (Z.mul_comm (10 ^ 3)), Z.mul_assoc, <- Z.pow_add_r by lia.
          do 2 f_equal. lia. }
    destruct (round_ratio_below z k (10 ^ 3) B) as [Hb Hs]; try lia.
    destruct (round_ratio _ _ _) as [z'|z'| |z' m' e'];
      simpl in *; try tauto; eauto.
Qed.

Lemma round3_below x w B :
  0 < w -> 0 <= B <= 1023 -> Z.abs x <= w * 2 ^ B ->
  exists f, round3 x w = Ok f /\ below B f /\ sign f = (x <? 0).
Proof.
  intros Hw HB Hx. unfold round3.
  destruct (int_truediv_below x w B Hw HB Hx) as (q & -> & Hq & Hsq).
  destruct (py_round3_below q B HB Hq) as (g & Hg & Hgb & Hsg).
  exists g. simpl. rewrite Hg. repeat split; congruence.
Qed.

Lemma one_eq : one = S754_finite false 4503599627370496 (-52).
Proof. vm_compute. reflexivity. Qed.

Lemma below_one_leb f :
  below 0 f -> sign f = false ->
  leb zero f = true /\ leb f one = true.
Proof.
  rewrite one_eq.
  destruct f as [z|z| |z m e]; cbn [below sign]; intros Hb E;
    try contradiction; subst z; (split; [reflexivity|]).
  1: reflexivity.
  destruct Hb as [He Hm]. unfold emin in He.
  unfold leb, SFleb, SFcompare.
  destruct (Z.compare_spec e (-52)) as [E|Hlt|Hgt].
  3: lia.
  2: auto.
  subst e.
  change (2 ^ (0 - -52)) with (Z.pos 4503599627370496) in Hm.
  replace (Pos.compare_cont Eq m 4503599627370496)
    with (Z.pos m ?= 4503599627370496) by reflexivity.
  destruct (Z.compare_spec (Z.pos m) 4503599627370496) as [E|E|E].
  1,2: reflexivity.
  exfalso; apply (Z.lt_irrefl (Z.pos m)); eapply Z.le_lt_trans; eassumption.
Qed.

End FloatFacts.

(** ** [normalize_coords] *)

Lemma round3_div_int x w :
  round3_div (RInt x) w = (f <- round3 x w ;; Ok (VFloat f)).
Proof.
  unfold round3_div, round3, truediv.
  destruct (Float.int_truediv x w); reflexivity.
Qed.

Lemma round3_ok x w :
  0 < w -> in_range x w -> exists f, round3 x w = Ok f.
Proof.
  intros Hw Hx.
  destruct (round3_below x w 1023 Hw ltac:(lia) Hx) as (f & Hf & _).
  eauto.
Qed.

Lemma round3_unit x w :
  0 < w -> 0 <= x <= w ->
  exists f, round3 x w = Ok f /\ in_unit (VFloat f) = true.
Proof.
  intros Hw Hx.
  destruct (round3_below x w 0 Hw ltac:(lia)) as (f & Hf & Hb & Hs).
  { rewrite Z.abs_eq by lia. lia. }
  exists f. split; [assumption|].
  replace (x <? 0) with false in Hs by (symmetry; apply Z.ltb_ge; lia).
  destruct (below_one_leb f Hb Hs) as [H0 H1].
  simpl. rewrite H0, H1. reflexivity.
Qed.

Lemma within_spec c dim : within c dim = true <-> 0 <= c <= dim.
Proof. unfold within. rewrite andb_true_iff, !Z.leb_le. tauto. Qed.

(** C1: for a box [[x, y, bw, bh]] of ints and a width and a height above
    zero, [normalize_coords] with kind "bbox" is the two-corner box
    [[round(x/w, 3), round(y/h, 3), round((x+bw)/w, 3), round((y+bh)/h, 3)]]:
    the two computations agree, they return the four floats whenever the
    quotients are within the range of a float, and
    [normalize_coords([100,100,200,200], 400, 400, "bbox")] is
    [[0.25, 0.25, 0.75, 0.75]]. *)
Theorem normalize_bbox_two_corner (x y bw bh w h : Z) :
  0 < w -> 0 < h ->
  normalize_coords (RList [RInt x; RInt y; RInt bw; RInt bh]) w h "bbox"
  = (x1 <- round3 x w ;;
     y1 <- round3 y h ;;
     x2 <- round3 (x + bw) w ;;
     y2 <- round3 (y + bh) h ;;
     Ok (VList [VFloat x1; VFloat y1; VFloat x2; VFloat y2]))
  /\ (in_range x w -> in_range y h ->
      in_range (x + bw) w -> in_range (y + bh) h ->
      exists x1 y1 x2 y2,
        round3 x w = Ok x1 /\ round3 y h = Ok y1 /\
        round3 (x + bw) w = Ok x2 /\ round3 (y + bh) h = Ok y2 /\
        normalize_coords (RList [RInt x; RInt y; RInt bw; RInt bh]) w h "bbox"
        = Ok (VList [VFloat x1; VFloat y1; VFloat x2; VFloat y2]))
  /\ normalize_coords (RList [RInt 100; RInt 100; RInt 200; RInt 200])
       400 400 "bbox"
     = Ok (VList [VFloat (Float.lit 25 2); VFloat (Float.lit 25 2);
                  VFloat (Float.lit 75 2); VFloat (Float.lit 75 2)]).
Proof.
  intros Hw Hh.
  assert (E : normalize_coords (RList [RInt x; RInt y; RInt bw; RInt bh])
                w h "bbox"
              = (x1 <- round3 x w ;;
                 y1 <- round3 y h ;;
                 x2 <- round3 (x + bw) w ;;
                 y2 <- round3 (y + bh) h ;;
                 Ok (VList [VFloat x1; VFloat y1; VFloat x2; VFloat y2]))).
  { unfold normalize_coords. cbn [String.eqb Ascii.eqb Bool.eqb add bind].
    rewrite !round3_div_int.
    destruct (round3 x w); cbn [bind]; [|reflexivity].
    destruct (round3 y h); cbn [bind]; [|reflexivity].
    destruct (round3 (x + bw) w); cbn [bind]; [|reflexivity].
    destruct (round3 (y + bh) h); reflexivity. }
  split; [exact E|split].
  - intros Rx Ry Rx2 Ry2.
    destruct (round3_ok x w Hw Rx) as [x1 H1].
    destruct (round3_ok y h Hh Ry) as [y1 H2].
    destruct (round3_ok _ w Hw Rx2) as [x2 H3].
    destruct (round3_ok _ h Hh Ry2) as [y2 H4].
    exists x1, y1, x2, y2. rewrite E, H1, H2, H3, H4. repeat split.
  - vm_compute. reflexivity.
Qed.

Lemma in_range_small x w : (Z.abs x <=? w * 2 ^ 1023) = true -> in_range x w.
Proof. apply Z.leb_le. Qed.

Lemma normalize_bbox_two_corner_witness :
  exists x1 y1 x2 y2,
    round3 14 640 = Ok x1 /\ round3 3 480 = Ok y1 /\
    round3 (14 + 310) 640 = Ok x2 /\ round3 (3 + 477) 480 = Ok y2 /\
    normalize_coords (RList [RInt 14; RInt 3; RInt 310; RInt 477])
      640 480 "bbox"
    = Ok (VList [VFloat x1; VFloat y1; VFloat x2; VFloat y2]).
Proof.
  destruct (normalize_bbox_two_corner 14 3 310 477 640 480) as (_ & H & _);
    [lia|lia|].
  apply H; apply in_range_small; vm_compute; reflexivity.
Defined.

(** The body of the trajectory comprehension, on a pair of ints. *)
Lemma traj_body x y w h :
  (p0 <- getitem (point_payload (x, y)) 0 ;;
   x1 <- round3_div p0 w ;;
   p1 <- getitem (point_payload (x, y)) 1 ;;
   y1 <- round3_div p1 h ;;
   Ok (VList [x1; y1]))
  = (a <- round3 x w ;; b <- round3 y h ;; Ok (VList [VFloat a; VFloat b])).
Proof.
  cbn [point_payload getitem nth_error fst snd bind]. rewrite !round3_div_int.
  destruct (round3 x w); cbn [bind]; [|reflexivity].
  destruct (round3 y h); reflexivity.
Qed.

Lemma comprehension_pairs w h pts out :
  comprehension
    (fun p =>
       p0 <- getitem p 0 ;;
       x1 <- round3_div p0 w ;;
       p1 <- getitem p 1 ;;
       y1 <- round3_div p1 h ;;
       Ok (VList [x1; y1])) (map point_payload pts) = Ok out ->
  Forall2 (normalized_pair w h) pts out.
Proof.
  revert out. induction pts as [|[x y] pts IH]; intros out H.
  - cbn in H. injection H as <-. constructor.
  - cbn [map comprehension] in H. rewrite traj_body in H.
    destruct (round3 x w) as [a|] eqn:Ea; cbn [bind] in H; [|discriminate].
    destruct (round3 y h) as [b|] eqn:Eb; cbn [bind] in H; [|discriminate].
    destruct (comprehension _ (map point_payload pts)) as [bs|] eqn:Ec;
      cbn [bind] in H; [|discriminate].
    injection H as <-. constructor; [|apply IH; reflexivity].
    exists a, b. cbn [fst snd]. auto.
Qed.

Lemma comprehension_pairs_ok w h pts :
  0 < w -> 0 < h ->
  Forall (fun xy => in_range (fst xy) w /\ in_range (snd xy) h) pts ->
  exists out,
    comprehension
      (fun p =>
         p0 <- getitem p 0 ;;
         x1 <- round3_div p0 w ;;
         p1 <- getitem p 1 ;;
         y1 <- round3_div p1 h ;;
         Ok (VList [x1; y1])) (map point_payload pts) = Ok out.
Proof.
  intros Hw Hh HR. induction HR as [|[x y] pts [Rx Ry] _ [out IH]].
  - exists []. reflexivity.
  - cbn [map comprehension]. rewrite traj_body, IH.
    destruct (round3_ok x w Hw Rx) as [a ->].
    destruct (round3_ok y h Hh Ry) as [b ->].
    cbn [bind]. eauto.
Qed.

(** C3: for a sequence of N pairs [[x, y]] of ints and a width and a height
    above zero, what [normalize_coords] with kind "trajectory" returns is a
    sequence of exactly N pairs, in the order of the input, the i-th being
    [[round(x_i/w, 3), round(y_i/h, 3)]]; and it does return when the
    quotients are within the range of a float. *)
Theorem normalize_trajectory_shape (pts : list (Z * Z)) (w h : Z) :
  0 < w -> 0 < h ->
  (forall v,
     normalize_coords (trajectory_payload pts) w h "trajectory" = Ok v ->
     exists out, v = VList out /\ List.length out = List.length pts /\
                 Forall2 (normalized_pair w h) pts out)
  /\ (Forall (fun xy => in_range (fst xy) w /\ in_range (snd xy) h) pts ->
      exists v,
        normalize_coords (trajectory_payload pts) w h "trajectory" = Ok v).
Proof.
  intros Hw Hh. unfold normalize_coords, trajectory_payload.
  cbn [String.eqb Ascii.eqb Bool.eqb]. split.
  - intros v H.
    destruct (comprehension _ (map point_payload pts)) as [out|] eqn:Ec;
      cbn [bind] in H; [|discriminate].
    injection H as <-. exists out.
    pose proof (comprehension_pairs w h pts out Ec) as HF.
    repeat split; [|assumption].
    symmetry. eapply Forall2_length; eassumption.
  - intros HR. destruct (comprehension_pairs_ok w h pts Hw Hh HR) as [out ->].
    cbn [bind]. eauto.
Qed.

Lemma normalize_trajectory_shape_witness :
  exists v,
    normalize_coords (trajectory_payload [(250, 20); (260, 100); (280, 200)])
      640 425 "trajectory" = Ok v.
Proof.
  apply (normalize_trajectory_shape [(250, 20); (260, 100); (280, 200)]
           640 425); [lia|lia|].
  repeat constructor; apply in_range_small; vm_compute; reflexivity.
Defined.

(** C4: for a point [[x, y]] of ints and a width and a height above zero,
    [normalize_coords] with kind "point" is [[round(x/w, 3), round(y/h, 3)]],
    and [normalize_coords([343,202], 640, 480, "point")] is
    [[0.536, 0.421]]. *)
Theorem normalize_point (x y w h : Z) :
  0 < w -> 0 < h ->
  normalize_coords (point_payload (x, y)) w h "point"
  = (a <- round3 x w ;; b <- round3 y h ;; Ok (VList [VFloat a; VFloat b]))
  /\ (in_range x w -> in_range y h ->
      exists a b, round3 x w = Ok a /\ round3 y h = Ok b /\
        normalize_coords (point_payload (x, y)) w h "point"
        = Ok (VList [VFloat a; VFloat b]))
  /\ normalize_coords (point_payload (343, 202)) 640 480 "point"
     = Ok (VList [VFloat (Float.lit 536 3); VFloat (Float.lit 421 3)]).
Proof.
  intros Hw Hh.
  assert (E : normalize_coords (point_payload (x, y)) w h "point"
              = (a <- round3 x w ;; b <- round3 y h ;;
                 Ok (VList [VFloat a; VFloat b]))).
  { unfold normalize_coords. cbn [String.eqb Ascii.eqb Bool.eqb].
    apply traj_body. }
  split; [exact E|split].
  - intros Rx Ry.
    destruct (round3_ok x w Hw Rx) as [a Ha].
    destruct (round3_ok y h Hh Ry) as [b Hb].
    exists a, b. rewrite E, Ha, Hb. repeat split.
  - vm_compute. reflexivity.
Qed.

Lemma normalize_point_witness :
  exists a b, round3 343 640 = Ok a /\ round3 202 480 = Ok b /\
    normalize_coords (point_payload (343, 202)) 640 480 "point"
    = Ok (VList [VFloat a; VFloat b]).
Proof.
  destruct (normalize_point 343 202 640 480) as (_ & H & _); [lia|lia|].
  apply H; apply in_range_small; vm_compute; reflexivity.
Defined.

(** C10: for a width and a height above zero, [normalize_coords] with kind
    "trajectory" returns the empty sequence on the empty sequence, and does
    not raise. *)
Theorem normalize_empty_trajectory (w h : Z) :
  0 < w -> 0 < h ->
  normalize_coords (RList []) w h "trajectory" = Ok (VList []).
Proof. intros _ _. reflexivity. Qed.

Lemma normalize_empty_trajectory_witness :
  normalize_coords (RList []) 640 480 "trajectory" = Ok (VList []).
Proof. apply normalize_empty_trajectory; lia. Defined.

(** C6, as stated, fails: on a kind outside bbox, point and trajectory,
    [normalize_coords] raises nothing; it returns [None]. *)
Lemma unknown_kind_returns_none :
  normalize_coords (RList [RInt 1; RInt 2]) 10 10 "polygon" = Ok VNone
  /\ ~ (exists e, normalize_coords (RList [RInt 1; RInt 2]) 10 10 "polygon"
                  = Raise e).
Proof.
  split; [reflexivity|]. intros [e H]. discriminate H.
Qed.

(** C6 (amended): on every kind outside bbox, point and trajectory,
    [normalize_coords] returns [None], whatever the coordinates and the
    dimensions, and raises nothing. *)
Theorem normalize_unknown_kind (coords : raw) (w h : Z) (type : string) :
  type <> "bbox"%string -> type <> "point"%string ->
  type <> "trajectory"%string ->
  normalize_coords coords w h type = Ok VNone.
Proof.
  intros H1 H2 H3. unfold normalize_coords.
  apply String.eqb_neq in H1, H2, H3. rewrite H1, H2, H3. reflexivity.
Qed.

Lemma normalize_unknown_kind_witness :
  normalize_coords (RList [RInt 1; RInt 2]) 10 10 "polygon" = Ok VNone.
Proof. apply normalize_unknown_kind; discriminate. Defined.

Lemma pair_inside_inv w h p :
  match p with
  | RList [RInt x; RInt y] => within x w && within y h
  | _ => false
  end = true ->
  exists x y, p = point_payload (x, y) /\ 0 <= x <= w /\ 0 <= y <= h.
Proof.
  destruct p as [|[|[x|] [|[y|] [|]]]]; try discriminate.
  rewrite andb_true_iff, !within_spec. intros [Hx Hy].
  exists x, y. unfold point_payload. auto.
Qed.

Lemma pair_unit x y w h :
  0 < w -> 0 < h -> 0 <= x <= w -> 0 <= y <= h ->
  exists v,
    (a <- round3 x w ;; b <- round3 y h ;; Ok (VList [VFloat a; VFloat b]))
    = Ok v /\ in_unit v = true.
Proof.
  intros Hw Hh Hx Hy.
  destruct (round3_unit x w Hw Hx) as (a & -> & Ua).
  destruct (round3_unit y h Hh Hy) as (b & -> & Ub).
  cbn [bind]. eexists; split; [reflexivity|].
  cbn [in_unit forallb] in *. rewrite Ua, Ub. reflexivity.
Qed.

(** C2, as stated, fails: each of the four components of the box
    [[300, 300, 300, 300]] is between 0 and 400, and its far corner is
    normalised to 1.5. *)
Lemma bbox_components_inside_not_unit :
  components_inside "bbox" (RList [RInt 300; RInt 300; RInt 300; RInt 300])
    400 400 = true
  /\ exists v,
       normalize_coords (RList [RInt 300; RInt 300; RInt 300; RInt 300])
         400 400 "bbox" = Ok v
       /\ v = VList [VFloat (Float.lit 75 2); VFloat (Float.lit 75 2);
                     VFloat (Float.lit 15 1); VFloat (Float.lit 15 1)]
       /\ in_unit v = false.
Proof.
  split; [reflexivity|]. eexists. split; [vm_compute; reflexivity|].
  split; vm_compute; reflexivity.
Qed.

(** C2 (amended): for each of the three kinds, when every pixel position of
    the payload lies inside the image (for a box: both its corners, that is
    [0 <= x <= w], [0 <= y <= h], [0 <= x + bw <= w] and
    [0 <= y + bh <= h]), [normalize_coords] returns and every scalar [v] of
    what it returns satisfies [0.0 <= v <= 1.0]. *)
Theorem normalize_inside_unit (type : string) (coords : raw) (w h : Z) :
  0 < w -> 0 < h -> inside type coords w h = true ->
  exists v, normalize_coords coords w h type = Ok v /\ in_unit v = true.
Proof.
  intros Hw Hh. unfold inside, shaped, normalize_coords.
  destruct (String.eqb type "bbox").
  { destruct coords as [|[|[x|] [|[y|] [|[bw|] [|[bh|] [|]]]]]];
      try discriminate.
    rewrite !andb_true_iff, !within_spec. intros [[[Hx Hy] Hx2] Hy2].
    cbn [add bind]. rewrite !round3_div_int.
    destruct (round3_unit x w Hw Hx) as (a & -> & Ua).
    destruct (round3_unit y h Hh Hy) as (b & -> & Ub).
    destruct (round3_unit _ w Hw Hx2) as (c & -> & Uc).
    destruct (round3_unit _ h Hh Hy2) as (d & -> & Ud).
    cbn [bind]. eexists; split; [reflexivity|].
    cbn [in_unit forallb] in *. rewrite Ua, Ub, Uc, Ud. reflexivity. }
  destruct (String.eqb type "point").
  { intros H. apply pair_inside_inv in H as (x & y & -> & Hx & Hy).
    rewrite traj_body. apply pair_unit; assumption. }
  destruct (String.eqb type "trajectory"); [|discriminate].
  destruct coords as [|ps]; [discriminate|].
  intros H.
  enough (exists out,
             comprehension
               (fun p =>
                  p0 <- getitem p 0 ;;
                  x1 <- round3_div p0 w ;;
                  p1 <- getitem p 1 ;;
                  y1 <- round3_div p1 h ;;
                  Ok (VList [x1; y1])) ps = Ok out
             /\ forallb in_unit out = true) as (out & -> & U).
  { cbn [bind]. eexists; split; [reflexivity|exact U]. }
  induction ps as [|p ps IH].
  - exists []. split; reflexivity.
  - cbn [forallb] in H. apply andb_true_iff in H as [Hp Hps].
    apply pair_inside_inv in Hp as (x & y & -> & Hx & Hy).
    destruct (IH Hps) as (out & Eo & Uo).
    cbn [comprehension]. rewrite traj_body, Eo.
    destruct (pair_unit x y w h Hw Hh Hx Hy) as (v & -> & Uv).
    cbn [bind]. eexists; split; [reflexivity|].
    cbn [forallb]. rewrite Uv, Uo. reflexivity.
Qed.

Lemma normalize_inside_unit_witness :
  exists v,
    normalize_coords (RList [RInt 14; RInt 3; RInt 310; RInt 477])
      640 480 "bbox" = Ok v
    /\ in_unit v = true.
Proof.
  apply normalize_inside_unit; [lia|lia|reflexivity].
Defined.

(** ** Texts without a newline *)

Lemma no_newline_app a b :
  no_newline (String.append a b) = no_newline a && no_newline b.
Proof.
  induction a as [|c a IH]; [reflexivity|].
  cbn [String.append no_newline]. rewrite IH, andb_assoc. reflexivity.
Qed.

Lemma no_newline_join l :
  forallb no_newline l = true -> no_newline (join l) = true.
Proof.
  induction l as [|x l IH]; [reflexivity|].
  cbn [forallb join]. intros H. apply andb_true_iff in H as [Hx Hl].
  destruct l as [|y l]; [assumption|].
  rewrite !no_newline_app, Hx, (IH Hl). reflexivity.
Qed.

Lemma no_newline_zeros n : no_newline (Repr.zeros n) = true.
Proof. induction n as [|n IH]; [reflexivity|exact IH]. Qed.

Lemma no_newline_drop n s :
  no_newline s = true -> no_newline (Repr.drop n s) = true.
Proof.
  revert s. induction n as [|n IH]; intros [|c s] H; cbn; auto.
  cbn in H. apply andb_true_iff in H as [_ H]. auto.
Qed.

Lemma no_newline_take n s :
  no_newline s = true -> no_newline (Repr.take n s) = true.
Proof.
  revert s. induction n as [|n IH]; intros [|c s] H; cbn; auto.
  cbn in H. apply andb_true_iff in H as [Hc H]. rewrite Hc. cbn. auto.
Qed.

Lemma no_newline_uint d : no_newline (NilEmpty.string_of_uint d) = true.
Proof. induction d; cbn; auto. Qed.

Lemma no_newline_int_repr x : no_newline (Repr.int_repr x) = true.
Proof.
  unfold Repr.int_repr, NilZero.string_of_int, NilZero.string_of_uint.
  destruct (Z.to_int x) as [d|d]; destruct d; cbn; auto using no_newline_uint.
Qed.

Lemma no_newline_encode_char c : no_newline (encode_char c) = true.
Proof.
  destruct c as [[] [] [] [] [] [] [] []]; vm_compute; reflexivity.
Qed.

Lemma no_newline_encode_string s : no_newline (encode_string s) = true.
Proof.
  unfold encode_string. cbn [no_newline]. rewrite no_newline_app.
  replace (no_newline (encode_chars s)) with true; [reflexivity|].
  induction s as [|c s IH]; [reflexivity|].
  cbn [encode_chars]. rewrite no_newline_app, no_newline_encode_char, <- IH.
  reflexivity.
Qed.

Lemma no_newline_float_repr f : no_newline (Repr.float_repr f) = true.
Proof.
  destruct f as [[]|[]| |s m e]; try reflexivity.
  unfold Repr.float_repr.
  destruct (Repr.float_digits m e) as [ds decpt] eqn:E.
  assert (Hds : no_newline ds = true).
  { unfold Repr.float_digits in E.
    destruct (Repr.shortest _ _ _ _ _ _ _ _ _) as [c p].
    destruct (Repr.strip _ _ _) as [c' p'].
    injection E as <- _. apply no_newline_int_repr. }
  assert (Hexp : forall x, no_newline (Repr.exponent_repr x) = true).
  { intros x. unfold Repr.exponent_repr.
    rewrite no_newline_app.
    destruct (x <? 0); destruct (_ <? _)%nat;
      rewrite ?no_newline_app, no_newline_int_repr; reflexivity. }
  repeat match goal with
         | |- context [if ?b then _ else _] => destruct b
         end;
    rewrite ?no_newline_app, ?no_newline_zeros, ?Hexp, ?Hds,
      ?no_newline_take, ?no_newline_drop by assumption; reflexivity.
Qed.

Lemma no_newline_encode_float f : no_newline (encode_float f) = true.
Proof.
  destruct f as [z|[]| |s m e]; try reflexivity;
    apply no_newline_float_repr.
Qed.

Lemma no_newline_dumps : forall j, no_newline (dumps j) = true.
Proof.
  fix IH 1. intros [|x|f|s|l|members]; cbn [dumps].
  - reflexivity.
  - apply no_newline_int_repr.
  - apply no_newline_encode_float.
  - apply no_newline_encode_string.
  - rewrite !no_newline_app, no_newline_join; [reflexivity|].
    induction l as [|j l IHl]; [reflexivity|].
    cbn [map forallb]. rewrite IH, IHl. reflexivity.
  - rewrite !no_newline_app, no_newline_join; [reflexivity|].
    induction members as [|[k j] members IHm]; [reflexivity|].
    cbn [map forallb fst snd].
    rewrite !no_newline_app, no_newline_encode_string, IH, IHm. reflexivity.
Qed.

Lemma lines_line l rest :
  no_newline l = true ->
  lines (String.append l (String newline rest)) = l :: lines rest.
Proof.
  induction l as [|c l IH]; intros H.
  - reflexivity.
  - cbn [no_newline] in H. apply andb_true_iff in H as [Hc Hl].
    cbn [String.append lines]. apply negb_true_iff in Hc. rewrite Hc.
    rewrite (IH Hl). reflexivity.
Qed.

Lemma lines_jsonl ds :
  lines (jsonl ds) = map (fun d => dumps (entry_json d)) ds.
Proof.
  induction ds as [|d ds IH]; [reflexivity|].
  cbn [jsonl map].
  replace (String.append
             (String.append (dumps (entry_json d)) (String newline ""))
             (jsonl ds))
    with (String.append (dumps (entry_json d)) (String newline (jsonl ds))).
  - rewrite lines_line by apply no_newline_dumps. rewrite IH. reflexivity.
  - induction (dumps (entry_json d)) as [|c s IHs]; [reflexivity|].
    cbn [String.append]. rewrite IHs. reflexivity.
Qed.

(** ** The loop *)

Lemma visualize_task_name render img item name v :
  visualize_task render img item name = Ok v -> fst v = name.
Proof.
  unfold visualize_task.
  destruct (figure item) as [[shape title]|]; cbn [bind]; [|discriminate].
  destruct (render img shape title name); [discriminate|].
  intros H. injection H as <-. reflexivity.
Qed.

Section PipelineFacts.

Variable download_image : string -> option image.
Variable render : renderer.

Lemma process_item_skip st item :
  download_image (item_url item) = None ->
  process_item download_image render st item = Ok st.
Proof. intros H. unfold process_item. rewrite H. reflexivity. Qed.

(** An iteration that completes on a fetched sample appends one record. *)
Lemma process_item_fetched st item img st' :
  download_image (item_url item) = Some img ->
  process_item download_image render st item = Ok st' ->
  exists anns resp r v,
    dispatch item (fst (size img)) (snd (size img)) (gpt_resp st)
    = Ok (anns, resp)
    /\ resp = Some r
    /\ visualize_task render img item (save_name item) = Ok v
    /\ st' = {| unified_data :=
                  unified_data st ++
                  [{| entry_id := item_id item;
                      entry_source := "coco_simulated";
                      entry_task_type := item_task_type item;
                      entry_media := {| image_size := size img;
                                        media_url := item_url item |};
                      spatial_annotations := anns;
                      conversations :=
                        [{| msg_from := "human";
                            msg_value := item_instruction item |};
                         {| msg_from := "gpt"; msg_value := r |}] |}];
                gpt_resp := Some r;
                rendered := rendered st ++ [v] |}.
Proof.
  intros Hd H. unfold process_item in H. rewrite Hd in H.
  destruct (size img) as [w h] eqn:Es. cbn [fst snd].
  destruct (dispatch item w h (gpt_resp st)) as [[anns resp]|] eqn:Ed;
    cbn [bind] in H; [|discriminate].
  destruct resp as [r|]; cbn [bind] in H; [|discriminate].
  destruct (visualize_task render img item (save_name item)) as [v|] eqn:Ev;
    cbn [bind] in H; [|discriminate].
  injection H as <-. exists anns, (Some r), r, v. auto.
Qed.

Lemma loop_filter st items :
  loop download_image render st items
  = loop download_image render st (filter (fetched download_image) items).
Proof.
  revert st. induction items as [|item items IH]; intros st; [reflexivity|].
  cbn [loop filter].
  destruct (download_image (item_url item)) as [img|] eqn:Hd.
  - replace (fetched download_image item) with true
      by (unfold fetched; rewrite Hd; reflexivity).
    cbn [loop].
    destruct (process_item download_image render st item); cbn [bind]; auto.
  - replace (fetched download_image item) with false
      by (unfold fetched; rewrite Hd; reflexivity).
    rewrite process_item_skip by assumption. cbn [bind]. apply IH.
Qed.

Lemma loop_records st items st' :
  loop download_image render st items = Ok st' ->
  exists es,
    unified_data st' = unified_data st ++ es
    /\ Forall2 emitted_for (filter (fetched download_image) items) es
    /\ map fst (rendered st')
       = map fst (rendered st)
         ++ map save_name (filter (fetched download_image) items).
Proof.
  revert st. induction items as [|item items IH]; intros st H.
  - injection H as <-. exists []. cbn. rewrite !app_nil_r. auto.
  - cbn [loop] in H.
    destruct (process_item download_image render st item) as [st1|] eqn:Ep;
      cbn [bind] in H; [|discriminate].
    destruct (IH st1 H) as (es & Hu & HF & Hr).
    cbn [filter].
    destruct (download_image (item_url item)) as [img|] eqn:Hd.
    + replace (fetched download_image item) with true
        by (unfold fetched; rewrite Hd; reflexivity).
      destruct (process_item_fetched st item img st1 Hd Ep)
        as (anns & resp & r & v & Hdis & -> & Hv & ->).
      cbn [unified_data rendered] in Hu, Hr.
      eexists (_ :: es). rewrite Hu, <- app_assoc. split; [reflexivity|].
      split.
      * constructor; [|assumption]. repeat split.
      * rewrite Hr, map_app, <- app_assoc. cbn [map app fst].
        rewrite (visualize_task_name _ _ _ _ _ Hv). reflexivity.
    + replace (fetched download_image item) with false
        by (unfold fetched; rewrite Hd; reflexivity).
      rewrite process_item_skip in Ep by assumption. injection Ep as <-.
      exists es. auto.
Qed.

Lemma run_filter items :
  run download_image render items
  = run download_image render (filter (fetched download_image) items).
Proof. unfold run. rewrite loop_filter. reflexivity. Qed.

Lemma run_records items out :
  run download_image render items = Ok out ->
  exists es,
    file out = jsonl es
    /\ lines (file out) = map (fun d => dumps (entry_json d)) es
    /\ Forall2 emitted_for (filter (fetched download_image) items) es
    /\ map fst (images out)
       = map save_name (filter (fetched download_image) items).
Proof.
  unfold run. intros H.
  destruct (loop download_image render initial items) as [st|] eqn:El;
    cbn [bind] in H; [|discriminate].
  injection H as <-. cbn [file images].
  destruct (loop_records initial items st El) as (es & Hu & HF & Hr).
  cbn [initial unified_data rendered app map] in Hu, Hr.
  exists es. rewrite Hu, lines_jsonl. auto.
Qed.

End PipelineFacts.

(** C8: when the run completes, the file it writes holds one line per
    accumulated record, each line the JSON encoding of one record, and the
    records are those of the samples whose download succeeded, in the order of
    the input. *)
Theorem jsonl_one_record_per_line
  (download_image : string -> option image) (render : renderer)
  (items : list sample)
  (out : output) :
  run download_image render items = Ok out ->
  exists es,
    file out = jsonl es
    /\ lines (file out) = map (fun d => dumps (entry_json d)) es
    /\ Forall2 emitted_for (filter (fetched download_image) items) es.
Proof.
  intros H. destruct (run_records download_image render items out H)
    as (es & H1 & H2 & H3 & _).
  exists es. auto.
Qed.

Lemma jsonl_one_record_per_line_witness :
  exists es,
    file example_output = jsonl es
    /\ lines (file example_output) = map (fun d => dumps (entry_json d)) es
    /\ Forall2 emitted_for
         (filter (fetched example_download)
            (unreachable_sample :: REAL_SAMPLES))
         es.
Proof.
  apply (jsonl_one_record_per_line example_download example_render
           (unreachable_sample :: REAL_SAMPLES) example_output).
  vm_compute. reflexivity.
Defined.

(** ** Records of the known task types *)

Lemma dispatch_known item w h resp anns resp' :
  known_task (item_task_type item) = true ->
  dispatch item w h resp = Ok (anns, resp') ->
  exists c v before after,
    lookup (item_data item) (payload_key (item_task_type item)) = Ok c
    /\ normalize_coords c w h (kind_of (item_task_type item)) = Ok v
    /\ anns = [{| ann_type := kind_of (item_task_type item);
                  ann_value := v;
                  ann_label := item_label item |}]
    /\ resp' = Some (String.append before
                      (String.append
                         (fst (marker (kind_of (item_task_type item))))
                         (String.append (str v)
                            (String.append
                               (snd (marker (kind_of (item_task_type item))))
                               after)))).
Proof.
  unfold known_task, dispatch, kind_of, payload_key.
  destruct (String.eqb (item_task_type item) "detection");
    [|destruct (String.eqb (item_task_type item) "trajectory");
      [|destruct (String.eqb (item_task_type item) "affordance");
        [|discriminate]]];
    intros _ H;
    match type of H with
    | context [lookup ?d ?k] =>
        destruct (lookup d k) as [c|]; cbn [bind] in H; [|discriminate]
    end;
    match type of H with
    | context [normalize_coords ?c ?w ?h ?k] =>
        destruct (normalize_coords c w h k) as [v|] eqn:En; cbn [bind] in H;
        [|discriminate]
    end;
    injection H as <- <-; exists c, v.
  - exists "Found at "%string, "."%string. repeat split; assumption.
  - exists "Trajectory path: "%string, "."%string.
    repeat split; assumption.
  - exists "Interact at point: "%string, "."%string.
    repeat split; assumption.
Qed.

(** C9: a record emitted for a fetched sample of a known task type has one
    spatial annotation, of the kind of the task type (detection: bbox,
    trajectory: trajectory, affordance: point), holding the normalised
    payload; and two conversation turns, the human one with the instruction
    of the sample, then the gpt one whose text holds [str] of the normalised
    value between the markers of the kind. *)
Theorem emitted_record_shape
  (download_image : string -> option image) (render : renderer)
  (st st' : state) (item : sample)
  (img : image) :
  known_task (item_task_type item) = true ->
  download_image (item_url item) = Some img ->
  process_item download_image render st item = Ok st' ->
  exists c v d before after,
    lookup (item_data item) (payload_key (item_task_type item)) = Ok c
    /\ normalize_coords c (fst (size img)) (snd (size img))
         (kind_of (item_task_type item)) = Ok v
    /\ unified_data st' = unified_data st ++ [d]
    /\ emitted_for item d
    /\ spatial_annotations d
       = [{| ann_type := kind_of (item_task_type item);
             ann_value := v;
             ann_label := item_label item |}]
    /\ List.length (spatial_annotations d) = 1%nat
    /\ conversations d
       = [{| msg_from := "human"; msg_value := item_instruction item |};
          {| msg_from := "gpt";
             msg_value :=
               String.append before
                 (String.append
                    (fst (marker (kind_of (item_task_type item))))
                    (String.append (str v)
                       (String.append
                          (snd (marker (kind_of (item_task_type item))))
                          after))) |}]
    /\ List.length (conversations d) = 2%nat.
Proof.
  intros Hk Hd Hp.
  destruct (process_item_fetched download_image render st item img st' Hd
              Hp)
    as (anns & resp & r & vis & Hdis & -> & _ & ->).
  destruct (dispatch_known _ _ _ _ _ _ Hk Hdis)
    as (c & v & before & after & Hl & Hn & -> & Hr).
  injection Hr as ->.
  exists c, v. eexists. exists before, after.
  cbn [unified_data spatial_annotations conversations].
  repeat split; try assumption; reflexivity.
Qed.

Lemma emitted_record_shape_witness :
  exists c v d before after,
    lookup (item_data bbox_cat) "bbox" = Ok c
    /\ normalize_coords c 640 480 "bbox" = Ok v
    /\ unified_data example_state = [d]
    /\ emitted_for bbox_cat d
    /\ spatial_annotations d
       = [{| ann_type := "bbox"; ann_value := v; ann_label := "cat" |}]
    /\ List.length (spatial_annotations d) = 1%nat
    /\ conversations d
       = [{| msg_from := "human"; msg_value := "Detect the cat." |};
          {| msg_from := "gpt";
             msg_value :=
               String.append before
                 (String.append "<box>"
                    (String.append (str v) (String.append "</box>" after)))
          |}]
    /\ List.length (conversations d) = 2%nat.
Proof.
  apply (emitted_record_shape example_download example_render initial
           example_state bbox_cat {| size := (640, 480) |});
    vm_compute; reflexivity.
Defined.

(** ** Downloads that fail *)

(** C7, as stated: after a sample whose download fails, the run need not
    terminate with a file. The loop goes on to the next sample, and an
    exception raised there ends the run: no file is written. *)
Lemma fetch_failure_run_aborts :
  example_download (item_url unreachable_sample) = None
  /\ run example_download example_render
       [unreachable_sample; segmentation_sample]
     = Raise UnboundLocalError
  /\ run example_download example_render
       [unreachable_sample;
        {| item_id := "task_bbox_cat";
           item_url := item_url bbox_cat;
           item_task_type := "detection";
           item_label := "cat";
           item_data := [("point"%string, point_payload (343, 202))];
           item_instruction := "Detect the cat." |}]
     = Raise KeyError.
Proof. repeat split; vm_compute; reflexivity. Qed.

(** C7 (amended): a sample whose download fails leaves the state of the loop
    as it is: no record is built for it, nothing is rendered for it, and the
    loop goes on to the next sample. The run over the samples is the run over
    the samples whose download succeeded, of which it is none: it raises what
    that run raises, and when it completes the file holds the records of the
    samples whose download succeeded, in their order, one per line, and the
    rendered files are theirs. *)
Theorem fetch_failure_skips
  (download_image : string -> option image) (render : renderer)
  (items : list sample) (item : sample) :
  In item items ->
  download_image (item_url item) = None ->
  (forall st, process_item download_image render st item = Ok st)
  /\ ~ In item (filter (fetched download_image) items)
  /\ run download_image render items
     = run download_image render (filter (fetched download_image) items)
  /\ (forall out,
        run download_image render items = Ok out ->
        exists es,
          file out = jsonl es
          /\ lines (file out) = map (fun d => dumps (entry_json d)) es
          /\ Forall2 emitted_for (filter (fetched download_image) items) es
          /\ map fst (images out)
             = map save_name (filter (fetched download_image) items)).
Proof.
  intros Hin Hnone. split; [|split; [|split]].
  - intros st. apply process_item_skip. assumption.
  - rewrite filter_In. unfold fetched. rewrite Hnone. intros [_ H].
    discriminate H.
  - apply run_filter.
  - intros out Hout. apply (run_records download_image render items out Hout).
Qed.

Lemma fetch_failure_skips_witness :
  (forall st,
     process_item example_download example_render st unreachable_sample
     = Ok st)
  /\ ~ In unreachable_sample REAL_SAMPLES
  /\ run example_download example_render (unreachable_sample :: REAL_SAMPLES)
     = run example_download example_render REAL_SAMPLES
  /\ exists es,
       lines (file example_output) = map (fun d => dumps (entry_json d)) es
       /\ Forall2 emitted_for REAL_SAMPLES es
       /\ map fst (images example_output) = map save_name REAL_SAMPLES.
Proof.
  destruct (fetch_failure_skips example_download example_render
              (unreachable_sample :: REAL_SAMPLES) unreachable_sample)
    as (H1 & H2 & H3 & H4).
  - left. reflexivity.
  - reflexivity.
  - split; [exact H1|]. split; [exact H2|]. split; [exact H3|].
    destruct (H4 example_output) as (es & _ & H5 & H6 & H7).
    + vm_compute. reflexivity.
    + exists es. auto.
Defined.

(** ** Task types outside the closed set *)

(** C5, as stated: a sample of an unknown task type is neither skipped nor
    harmless. Alone, it ends the run with an exception and no file is
    written; after other samples, a record is written for it. *)
Lemma unknown_task_not_skipped :
  known_task (item_task_type segmentation_sample) = false
  /\ run example_download example_render [segmentation_sample]
     = Raise UnboundLocalError
  /\ exists out d,
       run example_download example_render [bbox_cat; segmentation_sample]
       = Ok out
       /\ nth_error (lines (file out)) 1 = Some (dumps (entry_json d))
       /\ entry_id d = item_id segmentation_sample
       /\ spatial_annotations d = [].
Proof.
  split; [reflexivity|]. split; [vm_compute; reflexivity|].
  eexists.
  exists {| entry_id := "task_mask_cat";
            entry_source := "coco_simulated";
            entry_task_type := "segmentation";
            entry_media :=
              {| image_size := (640, 480);
                 media_url :=
                   "http://images.cocodataset.org/val2017/000000039769.jpg" |};
            spatial_annotations := [];
            conversations :=
              [{| msg_from := "human"; msg_value := "Segment the cat." |};
               {| msg_from := "gpt";
                  msg_value :=
                    "Found at <box>[0.022, 0.006, 0.506, 1.0]</box>." |}] |}.
  split; [vm_compute; reflexivity|].
  split; [vm_compute; reflexivity|].
  split; reflexivity.
Qed.

(** C5 (amended): for a fetched sample whose task type is outside
    detection, trajectory and affordance, no branch of the dispatch runs:
    nothing is normalised, no annotation is attached, the binding of the
    response is left as it was; an iteration that completes on it appends a
    record for it, whose [spatial_annotations] is empty. *)
Theorem unknown_task_no_annotation
  (download_image : string -> option image) (render : renderer)
  (st : state) (item : sample)
  (img : image) :
  known_task (item_task_type item) = false ->
  download_image (item_url item) = Some img ->
  (forall w h resp, dispatch item w h resp = Ok ([], resp))
  /\ (forall st',
        process_item download_image render st item = Ok st' ->
        exists d,
          unified_data st' = unified_data st ++ [d]
          /\ emitted_for item d
          /\ spatial_annotations d = []).
Proof.
  intros Hk Hd.
  assert (Hdis : forall w h resp, dispatch item w h resp = Ok ([], resp)).
  { intros w h resp. revert Hk. unfold known_task, dispatch.
    destruct (String.eqb (item_task_type item) "detection");
      [discriminate|].
    destruct (String.eqb (item_task_type item) "trajectory");
      [discriminate|].
    destruct (String.eqb (item_task_type item) "affordance");
      [discriminate|].
    reflexivity. }
  split; [exact Hdis|].
  intros st' Hp.
  destruct (process_item_fetched download_image render st item img st' Hd
              Hp)
    as (anns & resp & r & vis & Hdis' & -> & _ & ->).
  rewrite Hdis in Hdis'. injection Hdis' as <- _.
  eexists. cbn [unified_data]. split; [reflexivity|].
  repeat split.
Qed.

Lemma unknown_task_no_annotation_witness :
  (forall w h resp, dispatch segmentation_sample w h resp = Ok ([], resp))
  /\ (forall st',
        process_item example_download example_render example_state
          segmentation_sample
        = Ok st' ->
        exists d,
          unified_data st' = unified_data example_state ++ [d]
          /\ emitted_for segmentation_sample d
          /\ spatial_annotations d = []).
Proof.
  apply (unknown_task_no_annotation example_download example_render
           example_state segmentation_sample {| size := (640, 480) |});
    reflexivity.
Defined.

(* ================================================================== *)
(** * Further properties *)

(** ** Accuracy and order of the rounding *)

Section Rounding.
Import Float.

Lemma div_half_even_spec n d :
  0 <= n -> 0 < d ->
  2 * Z.abs (div_half_even n d * d - n) <= d
  /\ (2 * Z.abs (div_half_even n d * d - n) = d ->
      Z.even (div_half_even n d) = true).
Proof.
  intros Hn Hd. unfold div_half_even.
  pose proof (Z.div_mod n d ltac:(lia)) as Hdm.
  pose proof (Z.mod_pos_bound n d Hd) as Hr.
  set (q := n / d) in *. set (r := n mod d) in *.
  destruct (Z.compare_spec (2 * r) d) as [E|E|E].
  - destruct (Z.even q) eqn:Eq.
    + split; [nia|auto].
    + split; [nia|]. intros _. rewrite Z.even_add, Eq. reflexivity.
  - split; [nia|nia].
  - split; [nia|nia].
Qed.

Lemma div_half_even_mono n d n' d' :
  0 <= n -> 0 < d -> 0 <= n' -> 0 < d' -> n * d' <= n' * d ->
  div_half_even n d <= div_half_even n' d'.
Proof.
  intros Hn Hd Hn' Hd' Hle.
  destruct (div_half_even_spec n d Hn Hd) as [Ha Ea].
  destruct (div_half_even_spec n' d' Hn' Hd') as [Hb Eb].
  set (r := div_half_even n d) in *. set (r' := div_half_even n' d') in *.
  destruct (Z_le_gt_dec r r') as [|Hgt]; [assumption|exfalso].
  assert (H1 : 2 * (r * d - n) <= d) by lia.
  assert (H2 : 2 * (n' - r' * d') <= d') by lia.
  assert (Hdd : 0 < d * d') by nia.
  assert (Hr : r = r' + 1) by nia.
  assert (T1 : 2 * (r * d - n) = d) by nia.
  assert (T2 : 2 * (n' - r' * d') = d') by nia.
  assert (Er : Z.even r = true) by (apply Ea; lia).
  assert (Er' : Z.even r' = true) by (apply Eb; lia).
  rewrite Hr, Z.even_add, Er' in Er. discriminate Er.
Qed.

Lemma div_half_even_ge n d K :
  0 <= n -> 0 < d -> d * K <= n -> K <= div_half_even n d.
Proof.
  intros Hn Hd HK. unfold div_half_even.
  assert (K <= n / d) by (apply Z.div_le_lower_bound; lia).
  destruct (2 * (n mod d) ?= d); [destruct (Z.even (n / d))| |]; lia.
Qed.

Lemma div_half_even_0 d : 0 < d -> div_half_even 0 d = 0.
Proof.
  intros Hd. unfold div_half_even.
  rewrite Z.div_0_l, Z.mod_0_l by lia.
  destruct (Z.compare_spec (2 * 0) d); lia.
Qed.

(** [floor_log2_ratio] is the binary logarithm of a ratio below one. *)
Lemma floor_log2_ratio_unit n d :
  0 < n <= d ->
  floor_log2_ratio n d <= 0
  /\ d <= n * 2 ^ (- floor_log2_ratio n d) < 2 * d.
Proof.
  intros Hnd. unfold floor_log2_ratio.
  pose proof (Z.log2_spec n ltac:(lia)) as Ln.
  pose proof (Z.log2_spec d ltac:(lia)) as Ld.
  pose proof (Z.log2_nonneg n) as Nn. pose proof (Z.log2_nonneg d) as Nd.
  assert (Hs : Z.log2 n - Z.log2 d <= 0)
    by (pose proof (Z.log2_le_mono n d); lia).
  set (s := Z.log2 n - Z.log2 d) in *.
  rewrite (Z.max_r 0 (- s)), (Z.max_l 0 s), Z.pow_0_r, Z.mul_1_r by lia.
  assert (Hp : 2 ^ Z.log2 d = 2 ^ Z.log2 n * 2 ^ (- s)).
  { rewrite <- Z.pow_add_r by lia. f_equal. lia. }
  assert (Hpos : 0 < 2 ^ (- s)) by (apply Z.pow_pos_nonneg; lia).
  rewrite Z.pow_succ_r in Ln, Ld by lia.
  destruct (Z.ltb_spec (n * 2 ^ (- s)) d) as [Hlt|Hge].
  - split; [lia|].
    replace (- (s - 1)) with (Z.succ (- s)) by lia.
    rewrite Z.pow_succ_r by lia. nia.
  - split; [lia|]. nia.
Qed.

(** What [round(x / w, 3)] returns on a quotient of the unit interval is the
    float of a decimal of three places. *)
Lemma round3_thousandths x w :
  0 < w -> 0 <= x <= w ->
  round3 x w = Ok (lit (thousandths x w) 3)
  /\ 0 <= thousandths x w <= 1000.
Proof.
  intros Hw Hx.
  destruct (int_truediv_below x w 0 Hw ltac:(lia)) as (f & Hf & Hb & Hs).
  { rewrite Z.abs_eq by lia. lia. }
  replace (x <? 0) with false in Hs by (symmetry; apply Z.ltb_ge; lia).
  unfold round3, thousandths. rewrite Hf. cbn [bind].
  destruct f as [z|z| |z m e]; cbn [below sign] in Hb, Hs; try contradiction;
    subst z.
  - split; [reflexivity|lia].
  - destruct Hb as [He Hm]. unfold emin in He.
    set (k := div_half_even _ _).
    assert (Hk0 : 0 <= k).
    { apply div_half_even_nonneg.
      - repeat apply Z.mul_nonneg_nonneg; try lia; apply Z.pow_nonneg; lia.
      - apply Z.pow_pos_nonneg; lia. }
    assert (Hk : k <= 1000).
    { apply div_half_even_le.
      - repeat apply Z.mul_nonneg_nonneg; try lia; apply Z.pow_nonneg; lia.
      - apply Z.pow_pos_nonneg; lia.
      - rewrite (Z.max_l 0 e), (Z.max_r 0 (- e)), Z.pow_0_r by lia.
        replace (0 - e) with (- e) in Hm by lia. nia. }
    split; [|lia].
    unfold py_round.
    change (323 <? 3) with false. change (3 <? -308) with false.
    cbv iota. change (Z.max 0 3) with 3. change (Z.max 0 (- 3)) with 0.
    change (10 ^ 3) with 1000. rewrite Z.pow_0_r, !Z.mul_1_r. fold k.
    unfold lit.
    replace (k <? 0) with false by (symmetry; apply Z.ltb_ge; lia).
    rewrite Z.abs_eq by lia.
    change (Z.max 0 3) with 3. change (Z.max 0 (- 3)) with 0.
    change (10 ^ 3) with 1000. rewrite Z.pow_0_r, !Z.mul_1_r.
    destruct (round_ratio_below false k 1000 0) as [Hb _]; try lia.
    destruct (round_ratio false k 1000); cbn [below] in Hb; try contradiction;
      reflexivity.
Qed.

(** The quotient of the unit interval as the code computes it: an exponent
    [e], a mantissa [m0] on the grid [2^e], and the thousandths read off
    them. *)
Lemma thousandths_unit x w :
  0 < x <= w ->
  let e := Z.max (floor_log2_ratio x w - 52) emin in
  let m0 := div_half_even (x * 2 ^ (- e)) w in
  emin <= e <= -52 /\ 0 <= m0 <= 2 ^ (- e)
  /\ thousandths x w = div_half_even (1000 * m0) (2 ^ (- e)).
Proof.
  intros Hx e m0.
  destruct (floor_log2_ratio_unit x w Hx) as [Hfl _].
  assert (He : emin <= e <= -52) by (unfold e, emin; lia).
  unfold emin in He.
  assert (Hp : 0 < 2 ^ (- e)) by (apply Z.pow_pos_nonneg; lia).
  assert (Hm : 0 <= m0 <= 2 ^ (- e)).
  { split.
    - apply div_half_even_nonneg; nia.
    - apply div_half_even_le; nia. }
  split; [unfold emin; lia|]. split; [assumption|].
  unfold thousandths, int_truediv.
  destruct (Z.eqb_spec w 0); [lia|].
  replace (x <? 0) with false by (symmetry; apply Z.ltb_ge; lia).
  replace (w <? 0) with false by (symmetry; apply Z.ltb_ge; lia).
  cbn [xorb]. rewrite !Z.abs_eq by lia.
  unfold round_ratio.
  destruct (Z.eqb_spec x 0); [lia|].
  fold e.
  rewrite (Z.max_r 0 (- e)), (Z.max_l 0 e), Z.pow_0_r, Z.mul_1_r by lia.
  fold m0.
  destruct (Z.eqb_spec m0 (2 ^ prec)) as [Hc|Hc]; cbv iota beta.
  - unfold prec in Hc.
    assert (53 <= - e).
    { apply (Z.pow_le_mono_r_iff 2); lia. }
    change (2 ^ 52) with (Z.pos 4503599627370496).
    cbv iota.
    destruct (Z.leb_spec (e + 1) etop) as [_|Ht]; [|unfold etop in Ht; lia].
    rewrite (Z.max_r 0 (- (e + 1))), (Z.max_l 0 (e + 1)), Z.pow_0_r,
      Z.mul_1_r by lia.
    assert (H2 : 2 ^ (- e) = 2 * 2 ^ (- (e + 1))).
    { rewrite <- Z.pow_succ_r by lia. f_equal. lia. }
    assert (0 < 2 ^ (- (e + 1))) by (apply Z.pow_pos_nonneg; lia).
    rewrite Hc. change (2 ^ 53) with (2 * 4503599627370496).
    apply Z.le_antisymm; apply div_half_even_mono; lia.
  - destruct m0 as [|p|p] eqn:Em; [| |lia].
    + rewrite Z.mul_0_r, div_half_even_0 by assumption. reflexivity.
    + destruct (Z.leb_spec e etop) as [_|Ht]; [|unfold etop in Ht; lia].
      rewrite (Z.max_r 0 (- e)), (Z.max_l 0 e), Z.pow_0_r, Z.mul_1_r by lia.
      f_equal. lia.
Qed.

(** The thousandths are within half a unit, and a relative [1000 / 2^52], of
    the thousandfold of the quotient. *)
Lemma thousandths_accurate x w :
  0 < w -> 0 <= x <= w ->
  2 ^ 53 * Z.abs (thousandths x w * w - 1000 * x) <= (2 ^ 52 + 1000) * w.
Proof.
  intros Hw Hx.
  destruct (Z.eq_dec x 0) as [->|Hx0].
  { replace (thousandths 0 w) with 0.
    { replace (0 * w - 1000 * 0) with 0 by ring.
      rewrite Z.abs_0, Z.mul_0_r. apply Z.mul_nonneg_nonneg; lia. }
    unfold thousandths, int_truediv.
    destruct (Z.eqb_spec w 0); [lia|]. reflexivity. }
  destruct (thousandths_unit x w ltac:(lia)) as (He & Hm & ->).
  set (e := Z.max (floor_log2_ratio x w - 52) emin) in *.
  set (m0 := div_half_even (x * 2 ^ (- e)) w) in *.
  unfold emin in He.
  set (P := 2 ^ (- e)) in *.
  assert (HP : 2 ^ 52 <= P) by (apply Z.pow_le_mono_r; lia).
  assert (A : 2 * Z.abs (m0 * w - x * P) <= w).
  { apply div_half_even_spec; nia. }
  assert (B : 2 * Z.abs (div_half_even (1000 * m0) P * P - 1000 * m0) <= P).
  { apply div_half_even_spec; nia. }
  set (k := div_half_even (1000 * m0) P) in *.
  change (2 ^ 53) with (2 * 2 ^ 52).
  set (Q := 2 ^ 52) in *.
  assert (HQ : 0 < Q) by (unfold Q; lia).
  assert (C : 2 * P * Z.abs (k * w - 1000 * x) <= w * (P + 1000)).
  { assert (Z.abs ((k * w - 1000 * x) * P)
            <= Z.abs (k * P - 1000 * m0) * w
               + 1000 * Z.abs (m0 * w - x * P)).
    { replace ((k * w - 1000 * x) * P)
        with ((k * P - 1000 * m0) * w + 1000 * (m0 * w - x * P)) by ring.
      eapply Z.le_trans; [apply Z.abs_triangle|].
      rewrite !Z.abs_mul, (Z.abs_eq w), (Z.abs_eq 1000) by lia. lia. }
    rewrite Z.abs_mul, (Z.abs_eq P) in H by lia. nia. }
  set (a := Z.abs (k * w - 1000 * x)) in *.
  assert (0 <= a) by (unfold a; apply Z.abs_nonneg).
  destruct (Z_le_gt_dec (2 * a) w); nia.
Qed.

Lemma thousandths_0 w : thousandths 0 w = 0.
Proof.
  unfold thousandths, int_truediv. destruct (w =? 0); [reflexivity|].
  reflexivity.
Qed.

(** A larger coordinate never gets fewer thousandths. *)
Lemma thousandths_mono x x' w :
  0 < w -> 0 <= x <= x' -> x' <= w -> thousandths x w <= thousandths x' w.
Proof.
  intros Hw Hx Hx'.
  destruct (Z.eq_dec x 0) as [->|Hx0].
  { rewrite thousandths_0. apply (round3_thousandths x' w); lia. }
  destruct (thousandths_unit x w ltac:(lia)) as (He & Hm & ->).
  destruct (thousandths_unit x' w ltac:(lia)) as (He' & Hm' & ->).
  destruct (floor_log2_ratio_unit x w ltac:(lia)) as (Hf & Hl & Hu).
  destruct (floor_log2_ratio_unit x' w ltac:(lia)) as (Hf' & Hl' & Hu').
  set (fl := floor_log2_ratio x w) in *.
  set (fl' := floor_log2_ratio x' w) in *.
  assert (Hfl : fl <= fl').
  { destruct (Z_le_gt_dec fl fl') as [|Hgt]; [assumption|exfalso].
    assert (2 * 2 ^ (- fl) <= 2 ^ (- fl')).
    { rewrite <- Z.pow_succ_r by lia. apply Z.pow_le_mono_r; lia. }
    assert (0 < 2 ^ (- fl)) by (apply Z.pow_pos_nonneg; lia).
    nia. }
  set (e := Z.max (fl - 52) emin) in *.
  set (e' := Z.max (fl' - 52) emin) in *.
  set (m0 := div_half_even (x * 2 ^ (- e)) w) in *.
  set (m0' := div_half_even (x' * 2 ^ (- e')) w) in *.
  unfold emin in *.
  assert (Hee : e <= e') by (unfold e, e'; lia).
  assert (HP : 0 < 2 ^ (- e)) by (apply Z.pow_pos_nonneg; lia).
  assert (HP' : 0 < 2 ^ (- e')) by (apply Z.pow_pos_nonneg; lia).
  apply div_half_even_mono; try lia.
  enough (m0 * 2 ^ (- e') <= m0' * 2 ^ (- e)) by lia.
  destruct (Z.eq_dec e e') as [Heq|Hne].
  - rewrite <- Heq. apply Z.mul_le_mono_nonneg_r; [lia|].
    unfold m0, m0'. rewrite <- Heq.
    apply div_half_even_mono; nia.
  - assert (E' : e' = fl' - 52) by (unfold e' in *; lia).
    assert (H52 : 2 ^ 52 <= m0').
    { apply div_half_even_ge; [nia|lia|].
      rewrite E'. replace (- (fl' - 52)) with (- fl' + 52) by lia.
      rewrite Z.pow_add_r by lia.
      assert (0 < 2 ^ (- fl')) by (apply Z.pow_pos_nonneg; lia). nia. }
    assert (H53 : m0 <= 2 * 2 ^ 52).
    { apply div_half_even_le; [nia|lia|].
      assert (2 ^ (- e) <= 2 ^ (- fl + 52))
        by (apply Z.pow_le_mono_r; unfold e; lia).
      rewrite Z.pow_add_r in H by lia.
      assert (0 < 2 ^ (- fl)) by (apply Z.pow_pos_nonneg; lia). nia. }
    assert (H2 : 2 * 2 ^ (- e') <= 2 ^ (- e)).
    { rewrite <- Z.pow_succ_r by lia. apply Z.pow_le_mono_r; lia. }
    set (Q := 2 ^ 52) in *. assert (0 < Q) by (unfold Q; lia).
    nia.
Qed.

End Rounding.

(** ** The decimals of the unit interval *)

Lemma ascending_nth l d i j :
  ascending l = true -> (i <= j < List.length l)%nat ->
  Float.leb (nth i l d) (nth j l d) = true.
Proof.
  revert i j. induction l as [|a l IH]; intros i j H Hij; [cbn in Hij; lia|].
  cbn [ascending] in H. apply andb_true_iff in H as [Ha Hl].
  destruct i as [|i].
  - rewrite forallb_forall in Ha. apply Ha. cbn [nth].
    destruct j as [|j]; [left; reflexivity|].
    right. apply nth_In. cbn in Hij. lia.
  - destruct j as [|j]; [lia|]. cbn [nth]. apply IH; [assumption|].
    cbn in Hij. lia.
Qed.

Lemma unit_decimals_ascending : ascending unit_decimals = true.
Proof. vm_compute. reflexivity. Qed.

Lemma unit_decimals_nth k :
  0 <= k <= 1000 ->
  nth (Z.to_nat k) unit_decimals Float.zero = Float.lit k 3.
Proof.
  intros Hk. unfold unit_decimals.
  rewrite (nth_indep _ Float.zero (Float.lit (Z.of_nat 0) 3))
    by (rewrite length_map, length_seq; lia).
  rewrite (map_nth (fun i => Float.lit (Z.of_nat i) 3)), seq_nth by lia.
  rewrite Nat.add_0_l, Z2Nat.id by lia. reflexivity.
Qed.

Lemma lit3_le k k' :
  0 <= k <= k' -> k' <= 1000 ->
  Float.leb (Float.lit k 3) (Float.lit k' 3) = true.
Proof.
  intros Hk Hk'.
  rewrite <- (unit_decimals_nth k), <- (unit_decimals_nth k') by lia.
  apply ascending_nth; [apply unit_decimals_ascending|].
  unfold unit_decimals. rewrite length_map, length_seq. lia.
Qed.

Lemma unit_decimals_short :
  forallb (fun f => (String.length (Repr.float_repr f) <=? 5)%nat)
    unit_decimals = true.
Proof. vm_compute. reflexivity. Qed.

Lemma lit3_short k :
  0 <= k <= 1000 ->
  (String.length (Repr.float_repr (Float.lit k 3)) <= 5)%nat.
Proof.
  intros Hk. pose proof unit_decimals_short as H.
  rewrite forallb_forall in H. apply Nat.leb_le, H.
  rewrite <- (unit_decimals_nth k) by lia. apply nth_In.
  unfold unit_decimals. rewrite length_map, length_seq. lia.
Qed.

(** ** Normalised values of payloads inside the image *)

Lemma round3_decimal (P : spec_float -> Prop) x w :
  (forall k, 0 <= k <= 1000 -> P (Float.lit k 3)) ->
  0 < w -> 0 <= x <= w ->
  exists f, round3 x w = Ok f /\ P f.
Proof.
  intros HP Hw Hx. destruct (round3_thousandths x w Hw Hx) as [E Hk].
  eauto.
Qed.

Lemma pair_scalars (P : spec_float -> Prop) x y w h :
  (forall k, 0 <= k <= 1000 -> P (Float.lit k 3)) ->
  0 < w -> 0 < h -> 0 <= x <= w -> 0 <= y <= h ->
  exists v,
    (a <- round3 x w ;; b <- round3 y h ;; Ok (VList [VFloat a; VFloat b]))
    = Ok v /\ scalars P v.
Proof.
  intros HP Hw Hh Hx Hy.
  destruct (round3_decimal P x w HP Hw Hx) as (a & -> & Pa).
  destruct (round3_decimal P y h HP Hh Hy) as (b & -> & Pb).
  cbn [bind]. eexists; split; [reflexivity|]. cbn. auto.
Qed.

Lemma normalize_inside_scalars (P : spec_float -> Prop) type coords w h :
  (forall k, 0 <= k <= 1000 -> P (Float.lit k 3)) ->
  0 < w -> 0 < h -> inside type coords w h = true ->
  exists v, normalize_coords coords w h type = Ok v /\ scalars P v.
Proof.
  intros HP Hw Hh. unfold inside, shaped, normalize_coords.
  destruct (String.eqb type "bbox").
  { destruct coords as [|[|[x|] [|[y|] [|[bw|] [|[bh|] [|]]]]]];
      try discriminate.
    rewrite !andb_true_iff, !within_spec. intros [[[Hx Hy] Hx2] Hy2].
    cbn [add bind]. rewrite !round3_div_int.
    destruct (round3_decimal P x w HP Hw Hx) as (a & -> & Pa).
    destruct (round3_decimal P y h HP Hh Hy) as (b & -> & Pb).
    destruct (round3_decimal P _ w HP Hw Hx2) as (c & -> & Pc).
    destruct (round3_decimal P _ h HP Hh Hy2) as (d & -> & Pd).
    cbn [bind]. eexists; split; [reflexivity|]. cbn. auto. }
  destruct (String.eqb type "point").
  { intros H. apply pair_inside_inv in H as (x & y & -> & Hx & Hy).
    rewrite traj_body. apply pair_scalars; assumption. }
  destruct (String.eqb type "trajectory"); [|discriminate].
  destruct coords as [|ps]; [discriminate|].
  intros H.
  enough (exists out,
             comprehension
               (fun p =>
                  p0 <- getitem p 0 ;;
                  x1 <- round3_div p0 w ;;
                  p1 <- getitem p 1 ;;
                  y1 <- round3_div p1 h ;;
                  Ok (VList [x1; y1])) ps = Ok out
             /\ scalars P (VList out)) as (out & -> & U).
  { cbn [bind]. eexists; split; [reflexivity|exact U]. }
  induction ps as [|p ps IH].
  - exists []. split; [reflexivity|exact I].
  - cbn [forallb] in H. apply andb_true_iff in H as [Hp Hps].
    apply pair_inside_inv in Hp as (x & y & -> & Hx & Hy).
    destruct (IH Hps) as (out & Eo & Uo).
    cbn [comprehension]. rewrite traj_body, Eo.
    destruct (pair_scalars P x y w h HP Hw Hh Hx Hy) as (v & -> & Uv).
    cbn [bind]. eexists; split; [reflexivity|].
    cbn [scalars fold_right]. split; assumption.
Qed.

(** X1: for each of the three kinds, when the payload lies inside the image
    every scalar that [normalize_coords] returns is the float of a decimal of
    three places [k / 1000], with [0 <= k <= 1000]. *)
Theorem normalize_inside_three_places (type : string) (coords : raw)
  (w h : Z) :
  0 < w -> 0 < h -> inside type coords w h = true ->
  exists v,
    normalize_coords coords w h type = Ok v
    /\ scalars (fun f => exists k, 0 <= k <= 1000 /\ f = Float.lit k 3) v.
Proof.
  apply normalize_inside_scalars. intros k Hk. exists k. auto.
Qed.

Lemma normalize_inside_three_places_witness :
  exists v,
    normalize_coords (trajectory_payload [(250, 20); (260, 100)])
      640 425 "trajectory" = Ok v
    /\ scalars (fun f => exists k, 0 <= k <= 1000 /\ f = Float.lit k 3) v.
Proof.
  apply normalize_inside_three_places; [lia|lia|reflexivity].
Defined.

(** X2: for each of the three kinds, when the payload lies inside the image
    every scalar that [normalize_coords] returns is printed by [repr], and so
    in the response text and in the JSON line, with five characters at
    most. *)
Theorem normalize_inside_short_repr (type : string) (coords : raw)
  (w h : Z) :
  0 < w -> 0 < h -> inside type coords w h = true ->
  exists v,
    normalize_coords coords w h type = Ok v
    /\ scalars
         (fun f => (String.length (Repr.float_repr f) <= 5)%nat) v.
Proof.
  apply normalize_inside_scalars. apply lit3_short.
Qed.

Lemma normalize_inside_short_repr_witness :
  exists v,
    normalize_coords (RList [RInt 14; RInt 3; RInt 310; RInt 477])
      640 480 "bbox" = Ok v
    /\ scalars
         (fun f => (String.length (Repr.float_repr f) <= 5)%nat) v.
Proof.
  apply normalize_inside_short_repr; [lia|lia|reflexivity].
Defined.

(** X3: for a point inside the image, each normalised coordinate is the
    float of a decimal [k / 1000] that is within half a thousandth, and a
    relative [1000 / 2^52] more, of the exact quotient:
    [|k / 1000 - x / w| <= 0.0005 * (1 + 1000 / 2^52)]. *)
Theorem normalize_point_accuracy (x y w h : Z) :
  0 < w -> 0 < h -> 0 <= x <= w -> 0 <= y <= h ->
  exists kx ky,
    normalize_coords (point_payload (x, y)) w h "point"
    = Ok (VList [VFloat (Float.lit kx 3); VFloat (Float.lit ky 3)])
    /\ 2 ^ 53 * Z.abs (kx * w - 1000 * x) <= (2 ^ 52 + 1000) * w
    /\ 2 ^ 53 * Z.abs (ky * h - 1000 * y) <= (2 ^ 52 + 1000) * h.
Proof.
  intros Hw Hh Hx Hy.
  exists (thousandths x w), (thousandths y h).
  split; [|split; apply thousandths_accurate; assumption].
  unfold normalize_coords. cbn [String.eqb Ascii.eqb Bool.eqb].
  rewrite traj_body.
  destruct (round3_thousandths x w Hw Hx) as [-> _].
  destruct (round3_thousandths y h Hh Hy) as [-> _].
  reflexivity.
Qed.

Lemma normalize_point_accuracy_witness :
  exists kx ky,
    normalize_coords (point_payload (343, 202)) 375 500 "point"
    = Ok (VList [VFloat (Float.lit kx 3); VFloat (Float.lit ky 3)])
    /\ 2 ^ 53 * Z.abs (kx * 375 - 1000 * 343) <= (2 ^ 52 + 1000) * 375
    /\ 2 ^ 53 * Z.abs (ky * 500 - 1000 * 202) <= (2 ^ 52 + 1000) * 500.
Proof.
  apply normalize_point_accuracy; lia.
Defined.




(** On an exact tie the float of the quotient decides, not the quotient:
    [1/2000] is rounded up to [0.001], and half-even on the quotient would
    give [0.0]. *)
Example tie_follows_the_float :
  2 * ((1000 * 1) mod 2000) = 2000
  /\ round3 1 2000 = Ok (Float.lit 1 3)
  /\ Float.div_half_even (1000 * 1) 2000 = 0.
Proof. repeat split; vm_compute; reflexivity. Qed.

Lemma thousandths_exact x w j :
  0 < w -> 0 <= x <= w -> 1000 * x = j * w -> thousandths x w = j.
Proof.
  intros Hw Hx Hj.
  pose proof (thousandths_accurate x w Hw Hx) as A.
  set (k := thousandths x w) in *.
  change (2 ^ 53) with (2 * 4503599627370496) in A.
  change (2 ^ 52) with 4503599627370496 in A.
  rewrite Hj in A.
  destruct (Z.lt_trichotomy k j) as [Hlt|[Heq|Hgt]]; [|assumption|].
  - assert (k * w <= (j - 1) * w) by (apply Z.mul_le_mono_nonneg_r; lia).
    lia.
  - assert ((j + 1) * w <= k * w) by (apply Z.mul_le_mono_nonneg_r; lia).
    lia.
Qed.

(** X5: the box that covers the whole image is normalised to
    [[0.0, 0.0, 1.0, 1.0]], whatever the size of the image. *)
Theorem normalize_full_image_box (w h : Z) :
  0 < w -> 0 < h ->
  normalize_coords (RList [RInt 0; RInt 0; RInt w; RInt h]) w h "bbox"
  = Ok (VList [VFloat Float.zero; VFloat Float.zero;
               VFloat Float.one; VFloat Float.one]).
Proof.
  intros Hw Hh. unfold normalize_coords.
  cbn [String.eqb Ascii.eqb Bool.eqb add bind]. rewrite !round3_div_int.
  rewrite !Z.add_0_l.
  destruct (round3_thousandths 0 w Hw ltac:(lia)) as [-> _].
  destruct (round3_thousandths 0 h Hh ltac:(lia)) as [-> _].
  destruct (round3_thousandths w w Hw ltac:(lia)) as [-> _].
  destruct (round3_thousandths h h Hh ltac:(lia)) as [-> _].
  rewrite !thousandths_0.
  rewrite (thousandths_exact w w 1000), (thousandths_exact h h 1000) by lia.
  vm_compute. reflexivity.
Qed.

Lemma normalize_full_image_box_witness :
  normalize_coords (RList [RInt 0; RInt 0; RInt 640; RInt 480]) 640 480 "bbox"
  = Ok (VList [VFloat Float.zero; VFloat Float.zero;
               VFloat Float.one; VFloat Float.one]).
Proof. apply normalize_full_image_box; lia. Defined.

(** X6: for a box inside the image whose width and height are not negative,
    the corners that [normalize_coords] returns are in order: [x1 <= x2] and
    [y1 <= y2] as floats. *)
Theorem normalize_box_ordered (x y bw bh w h : Z) :
  0 < w -> 0 < h ->
  inside "bbox" (RList [RInt x; RInt y; RInt bw; RInt bh]) w h = true ->
  0 <= bw -> 0 <= bh ->
  exists x1 y1 x2 y2,
    normalize_coords (RList [RInt x; RInt y; RInt bw; RInt bh]) w h "bbox"
    = Ok (VList [VFloat x1; VFloat y1; VFloat x2; VFloat y2])
    /\ Float.leb x1 x2 = true /\ Float.leb y1 y2 = true.
Proof.
  intros Hw Hh Hin Hbw Hbh. revert Hin.
  unfold inside, shaped, normalize_coords.
  cbn [String.eqb Ascii.eqb Bool.eqb add bind].
  rewrite !andb_true_iff, !within_spec. intros [[[Hx Hy] Hx2] Hy2].
  rewrite !round3_div_int.
  destruct (round3_thousandths x w Hw Hx) as [-> K1].
  destruct (round3_thousandths y h Hh Hy) as [-> K2].
  destruct (round3_thousandths _ w Hw Hx2) as [-> K3].
  destruct (round3_thousandths _ h Hh Hy2) as [-> K4].
  cbn [bind]. do 4 eexists. split; [reflexivity|].
  pose proof (thousandths_mono x (x + bw) w Hw ltac:(lia) ltac:(lia)).
  pose proof (thousandths_mono y (y + bh) h Hh ltac:(lia) ltac:(lia)).
  split; apply lit3_le; lia.
Qed.

Lemma normalize_box_ordered_witness :
  exists x1 y1 x2 y2,
    normalize_coords (RList [RInt 14; RInt 3; RInt 310; RInt 477])
      640 480 "bbox"
    = Ok (VList [VFloat x1; VFloat y1; VFloat x2; VFloat y2])
    /\ Float.leb x1 x2 = true /\ Float.leb y1 y2 = true.
Proof.
  apply normalize_box_ordered; first [reflexivity | lia].
Defined.

(** ** Ill-shaped payloads and zero dimensions *)

(** X7: with kind "bbox", a list that does not have exactly four components
    is refused with [ValueError] before anything is divided, whatever the
    dimensions. *)
Theorem normalize_bbox_wrong_length (l : list raw) (w h : Z) :
  List.length l <> 4%nat ->
  normalize_coords (RList l) w h "bbox" = Raise ValueError.
Proof.
  intros Hl. unfold normalize_coords. cbn [String.eqb Ascii.eqb Bool.eqb].
  destruct l as [|a [|b [|c [|d [|e l]]]]]; try reflexivity.
  cbn in Hl. lia.
Qed.

Lemma normalize_bbox_wrong_length_witness :
  normalize_coords (RList [RInt 343; RInt 202]) 0 0 "bbox" = Raise ValueError.
Proof. apply normalize_bbox_wrong_length. discriminate. Defined.

Lemma round3_div_zero x : round3_div (RInt x) 0 = Raise ZeroDivisionError.
Proof. reflexivity. Qed.

(** X8: a zero dimension is not checked: on a box, a point or a trajectory
    that starts with a point, of ints, a zero width makes [normalize_coords]
    raise [ZeroDivisionError] at its first division, and so does a zero height
    once the division by the width is done. *)
Theorem normalize_zero_dimension (x y bw bh w h : Z) (ps : list raw) :
  0 < w -> in_range x w ->
  normalize_coords (RList [RInt x; RInt y; RInt bw; RInt bh]) 0 h "bbox"
  = Raise ZeroDivisionError
  /\ normalize_coords (point_payload (x, y)) 0 h "point"
     = Raise ZeroDivisionError
  /\ normalize_coords (RList (point_payload (x, y) :: ps)) 0 h "trajectory"
     = Raise ZeroDivisionError
  /\ normalize_coords (RList [RInt x; RInt y; RInt bw; RInt bh]) w 0 "bbox"
     = Raise ZeroDivisionError
  /\ normalize_coords (point_payload (x, y)) w 0 "point"
     = Raise ZeroDivisionError
  /\ normalize_coords (RList (point_payload (x, y) :: ps)) w 0 "trajectory"
     = Raise ZeroDivisionError.
Proof.
  intros Hw Hx. destruct (round3_ok x w Hw Hx) as [f Hf].
  unfold normalize_coords.
  cbn [String.eqb Ascii.eqb Bool.eqb comprehension point_payload getitem
         nth_error fst snd bind].
  rewrite !round3_div_zero, !round3_div_int, Hf. cbn [bind].
  repeat split; reflexivity.
Qed.

Lemma normalize_zero_dimension_witness :
  normalize_coords (RList [RInt 14; RInt 3; RInt 310; RInt 477]) 0 480 "bbox"
  = Raise ZeroDivisionError
  /\ normalize_coords (point_payload (14, 3)) 640 0 "point"
     = Raise ZeroDivisionError.
Proof.
  destruct (normalize_zero_dimension 14 3 310 477 640 480 [])
    as (H1 & _ & _ & _ & H5 & _).
  - lia.
  - apply in_range_small. vm_compute. reflexivity.
  - pose proof (normalize_zero_dimension 14 3 310 477 640 0 [] ltac:(lia)
                  ltac:(apply in_range_small; vm_compute; reflexivity))
      as (_ & _ & _ & _ & H5' & _).
    split; [exact H1|exact H5'].
Defined.

(** ** Trajectories, point by point *)

Lemma comprehension_app {A B : Type} (f : A -> result B) l1 l2 :
  comprehension f (l1 ++ l2)
  = (o1 <- comprehension f l1 ;;
     o2 <- comprehension f l2 ;;
     Ok (o1 ++ o2)).
Proof.
  induction l1 as [|a l1 IH]; cbn [app comprehension bind].
  - destruct (comprehension f l2); reflexivity.
  - destruct (f a); cbn [bind]; [|reflexivity]. rewrite IH.
    destruct (comprehension f l1); cbn [bind]; [|reflexivity].
    destruct (comprehension f l2); reflexivity.
Qed.

Lemma normalize_trajectory_inv ps w h v :
  normalize_coords (RList ps) w h "trajectory" = Ok v ->
  exists out,
    v = VList out
    /\ comprehension (fun p => normalize_coords p w h "point") ps = Ok out.
Proof.
  unfold normalize_coords at 1. cbn [String.eqb Ascii.eqb Bool.eqb].
  intros H.
  change (comprehension
            (fun p =>
               p0 <- getitem p 0 ;;
               x1 <- round3_div p0 w ;;
               p1 <- getitem p 1 ;;
               y1 <- round3_div p1 h ;;
               Ok (VList [x1; y1])) ps)
    with (comprehension (fun p => normalize_coords p w h "point") ps) in H.
  destruct (comprehension _ ps) as [out|]; cbn [bind] in H; [|discriminate].
  injection H as <-. eauto.
Qed.

(** X9: normalising a trajectory is normalising its points one by one, so
    the trajectory made of two trajectories end to end is normalised to their
    two results end to end. *)
Theorem normalize_trajectory_app (ps1 ps2 : list raw) (w h : Z)
  (o1 o2 : list value) :
  normalize_coords (RList ps1) w h "trajectory" = Ok (VList o1) ->
  normalize_coords (RList ps2) w h "trajectory" = Ok (VList o2) ->
  normalize_coords (RList (ps1 ++ ps2)) w h "trajectory"
  = Ok (VList (o1 ++ o2))
  /\ comprehension (fun p => normalize_coords p w h "point") ps1 = Ok o1.
Proof.
  intros H1 H2.
  destruct (normalize_trajectory_inv _ _ _ _ H1) as (o1' & E1 & C1).
  destruct (normalize_trajectory_inv _ _ _ _ H2) as (o2' & E2 & C2).
  injection E1 as <-. injection E2 as <-.
  split; [|assumption].
  unfold normalize_coords at 1. cbn [String.eqb Ascii.eqb Bool.eqb].
  change (comprehension
            (fun p =>
               p0 <- getitem p 0 ;;
               x1 <- round3_div p0 w ;;
               p1 <- getitem p 1 ;;
               y1 <- round3_div p1 h ;;
               Ok (VList [x1; y1])) (ps1 ++ ps2))
    with (comprehension (fun p => normalize_coords p w h "point")
            (ps1 ++ ps2)).
  rewrite comprehension_app, C1, C2. reflexivity.
Qed.

Lemma normalize_trajectory_app_witness :
  normalize_coords
    (RList ([point_payload (250, 20)] ++ [point_payload (260, 100)]))
    640 425 "trajectory"
  = Ok (VList ([VList [VFloat (Float.lit 391 3); VFloat (Float.lit 47 3)]]
               ++ [VList [VFloat (Float.lit 406 3);
                          VFloat (Float.lit 235 3)]]))
  /\ comprehension (fun p => normalize_coords p 640 425 "point")
       [point_payload (250, 20)]
     = Ok [VList [VFloat (Float.lit 391 3); VFloat (Float.lit 47 3)]].
Proof.
  apply normalize_trajectory_app; vm_compute; reflexivity.
Defined.

(** X10: a trajectory with an ill-formed point is refused as a whole: when
    the points before it are normalised and the point itself, taken as a
    point, raises an exception, the trajectory raises that exception and
    nothing of it is returned. *)
Theorem normalize_trajectory_first_error (ps1 ps2 : list raw) (p : raw)
  (w h : Z) (v : value) (e : exn) :
  normalize_coords (RList ps1) w h "trajectory" = Ok v ->
  normalize_coords p w h "point" = Raise e ->
  normalize_coords (RList (ps1 ++ p :: ps2)) w h "trajectory" = Raise e.
Proof.
  intros H1 Hp.
  destruct (normalize_trajectory_inv _ _ _ _ H1) as (o1 & _ & C1).
  unfold normalize_coords at 1. cbn [String.eqb Ascii.eqb Bool.eqb].
  change (comprehension
            (fun p =>
               p0 <- getitem p 0 ;;
               x1 <- round3_div p0 w ;;
               p1 <- getitem p 1 ;;
               y1 <- round3_div p1 h ;;
               Ok (VList [x1; y1])) (ps1 ++ p :: ps2))
    with (comprehension (fun p => normalize_coords p w h "point")
            (ps1 ++ p :: ps2)).
  rewrite comprehension_app, C1. cbn [bind comprehension]. rewrite Hp.
  reflexivity.
Qed.

Lemma normalize_trajectory_first_error_witness :
  normalize_coords
    (RList ([point_payload (250, 20)] ++ RList [RInt 260] :: []))
    640 425 "trajectory"
  = Raise IndexError.
Proof.
  apply (normalize_trajectory_first_error [point_payload (250, 20)] []
           (RList [RInt 260]) 640 425
           (VList [VList [VFloat (Float.lit 391 3);
                          VFloat (Float.lit 47 3)]]));
    vm_compute; reflexivity.
Defined.

(** ** Runs that write nothing, runs that abort *)

Section RunFacts.

Variable download_image : string -> option image.
Variable render : renderer.

Lemma loop_app st items1 items2 :
  loop download_image render st (items1 ++ items2)
  = (st' <- loop download_image render st items1 ;;
     loop download_image render st' items2).
Proof.
  revert st. induction items1 as [|item items1 IH]; intros st;
    cbn [app loop bind]; [reflexivity|].
  destruct (process_item download_image render st item); cbn [bind]; auto.
Qed.

Lemma loop_unfetched st items :
  Forall (fun item => download_image (item_url item) = None) items ->
  loop download_image render st items = Ok st.
Proof.
  intros H. induction H as [|item items Hi _ IH]; [reflexivity|].
  cbn [loop]. rewrite process_item_skip by assumption. exact IH.
Qed.

(** The binding of [gpt_resp] and the accumulator go together. *)
Lemma loop_bound st items st' :
  (gpt_resp st = None <-> unified_data st = []) ->
  loop download_image render st items = Ok st' ->
  (gpt_resp st' = None <-> unified_data st' = []).
Proof.
  revert st. induction items as [|item items IH]; intros st Hinv H.
  - injection H as <-. assumption.
  - cbn [loop] in H.
    destruct (process_item download_image render st item) as [st1|] eqn:Ep;
      cbn [bind] in H; [|discriminate].
    apply (IH st1); [|assumption].
    destruct (download_image (item_url item)) as [img|] eqn:Hd.
    + destruct (process_item_fetched download_image render st item img st1
                  Hd Ep)
        as (anns & resp & r & v & _ & _ & _ & ->).
      cbn [gpt_resp unified_data]. split; [discriminate|].
      intros E. apply app_eq_nil in E as [_ E]. discriminate E.
    + rewrite process_item_skip in Ep by assumption. injection Ep as <-.
      assumption.
Qed.

End RunFacts.

(** X11: when every download fails, the run still completes: it writes an
    empty file and renders nothing. *)
Theorem run_all_downloads_fail
  (download_image : string -> option image) (render : renderer)
  (items : list sample) :
  Forall (fun item => download_image (item_url item) = None) items ->
  run download_image render items
  = Ok {| file := EmptyString; images := [] |}.
Proof.
  intros H. unfold run. rewrite loop_unfetched by assumption. reflexivity.
Qed.

Lemma run_all_downloads_fail_witness :
  run (fun _ => None) example_render REAL_SAMPLES
  = Ok {| file := EmptyString; images := [] |}.
Proof.
  apply run_all_downloads_fail. repeat constructor.
Defined.

(** X12: an exception of one iteration ends the run: when the loop got
    through the samples before [item] and the iteration on [item] raises [e],
    the run raises [e] whatever the samples after it, and returns no file, not
    even for the records built before. *)
Theorem run_aborts_on_first_exception
  (download_image : string -> option image) (render : renderer)
  (before after : list sample)
  (item : sample) (st : state) (e : exn) :
  loop download_image render initial before = Ok st ->
  process_item download_image render st item = Raise e ->
  run download_image render (before ++ item :: after) = Raise e.
Proof.
  intros Hb Hi. unfold run. rewrite loop_app, Hb. cbn [bind loop].
  rewrite Hi. reflexivity.
Qed.

Lemma run_aborts_on_first_exception_witness :
  run example_download example_render
    ([bbox_cat]
     ++ {| item_id := "task_point_cat";
           item_url := item_url bbox_cat;
           item_task_type := "affordance";
           item_label := "cat";
           item_data := [];
           item_instruction := "Where is the cat?" |}
     :: [traj_skier])
  = Raise KeyError.
Proof.
  apply (run_aborts_on_first_exception example_download example_render
           [bbox_cat] [traj_skier] _ example_state);
    vm_compute; reflexivity.
Defined.

(** ** What a record depends on *)

Lemma dispatch_known_any item w h resp resp' anns r :
  known_task (item_task_type item) = true ->
  dispatch item w h resp = Ok (anns, r) ->
  dispatch item w h resp' = Ok (anns, r) /\ r <> None.
Proof.
  unfold known_task, dispatch.
  destruct (String.eqb (item_task_type item) "detection");
    [|destruct (String.eqb (item_task_type item) "trajectory");
      [|destruct (String.eqb (item_task_type item) "affordance");
        [|discriminate]]];
    intros _ H; (split; [exact H|]);
    match type of H with
    | context [lookup ?d ?k] =>
        destruct (lookup d k) as [c|]; cbn [bind] in H; [|discriminate]
    end;
    match type of H with
    | context [normalize_coords ?c ?w ?h ?k] =>
        destruct (normalize_coords c w h k) as [v|]; cbn [bind] in H;
        [|discriminate]
    end;
    injection H as _ <-; discriminate.
Qed.

(** X13: for a sample of a known task type, the record, the response and the
    rendering of an iteration that completes depend on the sample and its
    image alone: from any other state the iteration completes as well and
    appends the same record, binds the same response and renders the same
    overlay. *)
Theorem known_record_independent
  (download_image : string -> option image) (render : renderer)
  (st st' other : state)
  (item : sample) (img : image) :
  known_task (item_task_type item) = true ->
  download_image (item_url item) = Some img ->
  process_item download_image render st item = Ok st' ->
  exists d r v,
    st' = {| unified_data := unified_data st ++ [d];
             gpt_resp := Some r;
             rendered := rendered st ++ [v] |}
    /\ process_item download_image render other item
       = Ok {| unified_data := unified_data other ++ [d];
               gpt_resp := Some r;
               rendered := rendered other ++ [v] |}
    /\ entry_media d = {| image_size := size img;
                          media_url := item_url item |}
    /\ entry_source d = "coco_simulated"%string.
Proof.
  intros Hk Hd Hp.
  destruct (process_item_fetched download_image render st item img st' Hd
              Hp)
    as (anns & resp & r & v & Hdis & -> & Hv & ->).
  destruct (dispatch_known_any item _ _ _ (gpt_resp other) _ _ Hk Hdis)
    as [Hdis' _].
  eexists _, r, v. split; [reflexivity|]. split; [|split; reflexivity].
  unfold process_item. rewrite Hd.
  destruct (size img) as [w h]. cbn [fst snd] in Hdis'.
  rewrite Hdis'. cbn [bind]. rewrite Hv. reflexivity.
Qed.

Lemma known_record_independent_witness :
  exists d r v,
    example_state
    = {| unified_data := unified_data initial ++ [d];
         gpt_resp := Some r;
         rendered := rendered initial ++ [v] |}
    /\ process_item example_download example_render example_state bbox_cat
       = Ok {| unified_data := unified_data example_state ++ [d];
               gpt_resp := Some r;
               rendered := rendered example_state ++ [v] |}
    /\ entry_media d = {| image_size := (640, 480);
                          media_url := item_url bbox_cat |}
    /\ entry_source d = "coco_simulated"%string.
Proof.
  apply (known_record_independent example_download example_render initial
           example_state example_state bbox_cat {| size := (640, 480) |});
    vm_compute; reflexivity.
Defined.

Lemma process_item_unknown
  (download_image : string -> option image) (render : renderer)
  (st : state) (item : sample) (img : image) :
  known_task (item_task_type item) = false ->
  download_image (item_url item) = Some img ->
  (gpt_resp st = None ->
   process_item download_image render st item = Raise UnboundLocalError)
  /\ (forall r, gpt_resp st = Some r ->
        process_item download_image render st item
        = match render img NoOverlay None (save_name item) with
          | Some cls => Raise (PlotError cls)
          | None =>
              Ok {| unified_data :=
                      unified_data st ++
                      [{| entry_id := item_id item;
                          entry_source := "coco_simulated";
                          entry_task_type := item_task_type item;
                          entry_media := {| image_size := size img;
                                            media_url := item_url item |};
                          spatial_annotations := [];
                          conversations :=
                            [{| msg_from := "human";
                                msg_value := item_instruction item |};
                             {| msg_from := "gpt"; msg_value := r |}] |}];
                    gpt_resp := Some r;
                    rendered :=
                      rendered st ++ [(save_name item, NoOverlay)] |}
          end).
Proof.
  intros Hk Hd. unfold process_item, dispatch, visualize_task, figure.
  rewrite Hd. revert Hk. unfold known_task.
  destruct (String.eqb (item_task_type item) "detection"); [discriminate|].
  destruct (String.eqb (item_task_type item) "trajectory"); [discriminate|].
  destruct (String.eqb (item_task_type item) "affordance"); [discriminate|].
  intros _. destruct (size img) as [w h]. cbn [bind].
  split.
  - intros ->. reflexivity.
  - intros r ->. cbn [bind].
    destruct (render img NoOverlay None (save_name item)); reflexivity.
Qed.

(** X14: for a fetched sample whose task type is outside detection,
    trajectory and affordance, [gpt_resp] is read without having been
    assigned in the iteration. When no earlier iteration bound it, the
    iteration raises [UnboundLocalError]. When one did, the record is built
    with no annotation and with the response of that earlier sample as its
    gpt turn, and the image is drawn without overlay and without title: the
    iteration raises what the plotting library raises, on the file name made
    of the task type for one, and completes with that record when the
    library raises nothing. *)
Theorem unknown_task_stale_response
  (download_image : string -> option image) (render : renderer)
  (st : state) (item : sample) (img : image) :
  known_task (item_task_type item) = false ->
  download_image (item_url item) = Some img ->
  (gpt_resp st = None ->
   process_item download_image render st item = Raise UnboundLocalError)
  /\ (forall r, gpt_resp st = Some r ->
        process_item download_image render st item
        = match render img NoOverlay None (save_name item) with
          | Some cls => Raise (PlotError cls)
          | None =>
              Ok {| unified_data :=
                      unified_data st ++
                      [{| entry_id := item_id item;
                          entry_source := "coco_simulated";
                          entry_task_type := item_task_type item;
                          entry_media := {| image_size := size img;
                                            media_url := item_url item |};
                          spatial_annotations := [];
                          conversations :=
                            [{| msg_from := "human";
                                msg_value := item_instruction item |};
                             {| msg_from := "gpt"; msg_value := r |}] |}];
                    gpt_resp := Some r;
                    rendered :=
                      rendered st ++ [(save_name item, NoOverlay)] |}
          end).
Proof.
  intros Hk Hd. apply process_item_unknown; assumption.
Qed.

Lemma unknown_task_stale_response_witness :
  process_item example_download example_render initial segmentation_sample
  = Raise UnboundLocalError
  /\ process_item example_download
       (fun _ _ _ _ => Some "FileNotFoundError"%string)
       example_state segmentation_sample
     = Raise (PlotError "FileNotFoundError")
  /\ exists st',
       process_item example_download example_render example_state
         segmentation_sample
       = Ok st'
       /\ map msg_value
            (List.concat (map conversations (unified_data st')))
          = ["Detect the cat.";
             "Found at <box>[0.022, 0.006, 0.506, 1.0]</box>.";
             "Segment the cat.";
             "Found at <box>[0.022, 0.006, 0.506, 1.0]</box>."]%string.
Proof.
  destruct (unknown_task_stale_response example_download example_render
              initial segmentation_sample {| size := (640, 480) |}
              eq_refl eq_refl)
    as [H1 _].
  destruct (unknown_task_stale_response example_download
              (fun _ _ _ _ => Some "FileNotFoundError"%string)
              example_state segmentation_sample {| size := (640, 480) |}
              eq_refl eq_refl)
    as [_ H2].
  destruct (unknown_task_stale_response example_download example_render
              example_state segmentation_sample {| size := (640, 480) |}
              eq_refl eq_refl)
    as [_ H3].
  split; [apply H1; reflexivity|].
  split; [rewrite (H2 _ eq_refl); reflexivity|].
  eexists. split; [rewrite (H3 _ eq_refl); reflexivity|]. reflexivity.
Defined.

(** X15: in a run, a fetched sample of an unknown task type raises
    [UnboundLocalError] exactly when no record was emitted before it: that
    is, when it is the first sample whose download succeeds. *)
Theorem unknown_task_unbound_iff_first
  (download_image : string -> option image) (render : renderer)
  (before : list sample)
  (item : sample) (img : image) (st : state) :
  known_task (item_task_type item) = false ->
  download_image (item_url item) = Some img ->
  loop download_image render initial before = Ok st ->
  (process_item download_image render st item = Raise UnboundLocalError
   <-> unified_data st = [])
  /\ (unified_data st = []
      <-> filter (fetched download_image) before = []).
Proof.
  intros Hk Hd Hl.
  assert (Hinv : gpt_resp st = None <-> unified_data st = []).
  { apply (loop_bound download_image render initial before); [|assumption].
    cbn. tauto. }
  destruct (process_item_unknown download_image render st item img Hk Hd)
    as [Hnone Hsome].
  split.
  - split.
    + intros Hr. apply Hinv. destruct (gpt_resp st) as [r|]; [|reflexivity].
      rewrite (Hsome r eq_refl) in Hr.
      destruct (render img NoOverlay None (save_name item));
        discriminate Hr.
    + intros Hu. apply Hnone, Hinv, Hu.
  - destruct (loop_records download_image render initial before st Hl)
      as (es & Hu & HF & _).
    cbn [initial unified_data app] in Hu. rewrite Hu.
    split; intros E.
    + rewrite E in HF. inversion HF. reflexivity.
    + rewrite E in HF. inversion HF. reflexivity.
Qed.

Lemma unknown_task_unbound_iff_first_witness :
  (process_item example_download example_render initial segmentation_sample
   = Raise UnboundLocalError
   <-> unified_data initial = [])
  /\ (unified_data initial = []
      <-> filter (fetched example_download) [unreachable_sample] = []).
Proof.
  apply (unknown_task_unbound_iff_first example_download example_render
           [unreachable_sample] segmentation_sample
           {| size := (640, 480) |} initial);
    reflexivity.
Defined.

(** ** Normalised, then rendered *)

Lemma comprehension_getitems w h ps out :
  comprehension
    (fun p =>
       p0 <- getitem p 0 ;;
       x1 <- round3_div p0 w ;;
       p1 <- getitem p 1 ;;
       y1 <- round3_div p1 h ;;
       Ok (VList [x1; y1])) ps = Ok out ->
  exists xs ys,
    comprehension (fun p => getitem p 0) ps = Ok xs
    /\ comprehension (fun p => getitem p 1) ps = Ok ys.
Proof.
  revert out. induction ps as [|p ps IH]; intros out H.
  - exists [], []. split; reflexivity.
  - cbn [comprehension] in H |- *.
    destruct (getitem p 0) as [p0|]; cbn [bind] in H |- *; [|discriminate].
    destruct (round3_div p0 w); cbn [bind] in H; [|discriminate].
    destruct (getitem p 1) as [p1|]; cbn [bind] in H |- *; [|discriminate].
    destruct (round3_div p1 h); cbn [bind] in H; [|discriminate].
    destruct (comprehension _ ps) as [o|] eqn:Ec; cbn [bind] in H;
      [|discriminate].
    destruct (IH o eq_refl) as (xs & ys & -> & ->).
    cbn [bind]. eauto.
Qed.

(** X16: for a detection or a trajectory sample, the unpacking of the
    visualiser accepts every payload the normaliser accepts. Once the download
    and the dispatch have succeeded, the visualiser has a shape and a title to
    draw, and the iteration raises only what the plotting library raises over
    them; when the library raises nothing the iteration completes, and
    appends the record with the annotations of the dispatch. *)
Theorem normalized_then_rendered
  (download_image : string -> option image) (render : renderer)
  (st : state) (item : sample) (img : image) (anns : list annotation)
  (resp : option string) :
  item_task_type item = "detection"%string
  \/ item_task_type item = "trajectory"%string ->
  download_image (item_url item) = Some img ->
  dispatch item (fst (size img)) (snd (size img)) (gpt_resp st)
  = Ok (anns, resp) ->
  exists shape title d,
    figure item = Ok (shape, Some title)
    /\ spatial_annotations d = anns
    /\ process_item download_image render st item
       = match render img shape (Some title) (save_name item) with
         | Some cls => Raise (PlotError cls)
         | None =>
             Ok {| unified_data := unified_data st ++ [d];
                   gpt_resp := resp;
                   rendered := rendered st ++ [(save_name item, shape)] |}
         end.
Proof.
  intros Ht Hd Hdis. unfold process_item, visualize_task. rewrite Hd.
  destruct (size img) as [w h]. cbn [fst snd] in Hdis. rewrite Hdis.
  cbn [bind].
  assert (exists r shape title,
             resp = Some r /\ figure item = Ok (shape, Some title))
    as (r & shape & title & -> & Hf).
  { revert Hdis. unfold dispatch, figure.
    destruct Ht as [-> | ->]; cbn [String.eqb Ascii.eqb Bool.eqb].
    - destruct (lookup (item_data item) "bbox") as [c|]; cbn [bind];
        [|discriminate].
      destruct (normalize_coords c w h "bbox") as [nb|] eqn:En;
        cbn [bind]; [|discriminate].
      intros H. injection H as _ <-.
      unfold normalize_coords in En. cbn [String.eqb Ascii.eqb Bool.eqb] in En.
      destruct c as [|[|a [|b [|c [|d [|]]]]]]; try discriminate.
      eauto.
    - destruct (lookup (item_data item) "points") as [c|]; cbn [bind];
        [|discriminate].
      destruct (normalize_coords c w h "trajectory") as [nt|] eqn:En;
        cbn [bind]; [|discriminate].
      intros H. injection H as _ <-.
      unfold normalize_coords in En. cbn [String.eqb Ascii.eqb Bool.eqb] in En.
      destruct c as [|ps]; [discriminate|].
      destruct (comprehension _ ps) as [out|] eqn:Ec; [|discriminate].
      destruct (comprehension_getitems w h ps out Ec) as (xs & ys & -> & ->).
      cbn [bind]. eauto. }
  rewrite Hf. cbn [bind].
  eexists shape, title, _. split; [reflexivity|].
  split; [|destruct (render img shape (Some title) (save_name item));
           reflexivity].
  reflexivity.
Qed.

Lemma normalized_then_rendered_witness :
  exists shape title d,
    figure traj_skier = Ok (shape, Some title)
    /\ spatial_annotations d
       = [{| ann_type := "trajectory";
             ann_value :=
               VList
                 [VList [VFloat (Float.lit 391 3); VFloat (Float.lit 47 3)];
                  VList [VFloat (Float.lit 406 3); VFloat (Float.lit 235 3)];
                  VList [VFloat (Float.lit 438 3); VFloat (Float.lit 471 3)];
                  VList [VFloat (Float.lit 469 3); VFloat (Float.lit 706 3)];
                  VList [VFloat (Float.lit 344 3); VFloat (Float.lit 824 3)]];
             ann_label := "skier_path" |}]
    /\ process_item example_download example_render example_state traj_skier
       = Ok {| unified_data := unified_data example_state ++ [d];
               gpt_resp :=
                 Some ("Trajectory path: <traj>"
                       +++ "[[0.391, 0.047], [0.406, 0.235], "
                       +++ "[0.438, 0.471], [0.469, 0.706], "
                       +++ "[0.344, 0.824]]</traj>.");
               rendered :=
                 rendered example_state ++ [(save_name traj_skier, shape)] |}.
Proof.
  eapply (normalized_then_rendered example_download example_render
            example_state traj_skier {| size := (640, 425) |}).
  - right. reflexivity.
  - reflexivity.
  - vm_compute. reflexivity.
Defined.



(** ** Missing payloads *)

Lemma lookup_absent {A : Type} (d : list (string * A)) key :
  ~ In key (map fst d) -> lookup d key = Raise KeyError.
Proof.
  induction d as [|[k v] d IH]; intros H; [reflexivity|].
  cbn [lookup]. cbn [map fst In] in H.
  destruct (String.eqb_spec k key) as [E|_]; [tauto|]. apply IH. tauto.
Qed.

(** X18: for a fetched sample of a known task type whose data has no entry
    under the key of its task (bbox, points or point), the iteration raises
    [KeyError], whatever else the data holds and whatever the size of the
    image. *)
Theorem missing_payload_key
  (download_image : string -> option image) (render : renderer)
  (st : state) (item : sample)
  (img : image) :
  known_task (item_task_type item) = true ->
  ~ In (payload_key (item_task_type item)) (map fst (item_data item)) ->
  download_image (item_url item) = Some img ->
  process_item download_image render st item = Raise KeyError.
Proof.
  intros Hk Hin Hd. apply lookup_absent in Hin.
  unfold process_item, dispatch. rewrite Hd. destruct (size img) as [w h].
  revert Hk Hin. unfold known_task, payload_key.
  destruct (String.eqb (item_task_type item) "detection");
    [|destruct (String.eqb (item_task_type item) "trajectory");
      [|destruct (String.eqb (item_task_type item) "affordance");
        [|discriminate]]];
    intros _ ->; reflexivity.
Qed.

Lemma missing_payload_key_witness :
  process_item example_download example_render initial
    {| item_id := "task_bbox_cat";
       item_url := item_url bbox_cat;
       item_task_type := "detection";
       item_label := "cat";
       item_data := [("point"%string, point_payload (343, 202))];
       item_instruction := "Detect the cat." |}
  = Raise KeyError.
Proof.
  apply (missing_payload_key example_download example_render initial _
           {| size := (640, 480) |}); [reflexivity| |reflexivity].
  cbn. intros [H|[]]. discriminate H.
Defined.

(** ** Names of the rendered files *)

Lemma append_length a b :
  String.length (String.append a b)
  = (String.length a + String.length b)%nat.
Proof. induction a as [|c a IH]; cbn; [reflexivity|]. rewrite IH. lia. Qed.

Lemma append_inj_r a b x :
  String.append a x = String.append b x -> a = b.
Proof.
  revert b. induction a as [|c a IH]; intros [|c' b] H.
  - reflexivity.
  - apply (f_equal String.length) in H. cbn in H.
    rewrite append_length in H. lia.
  - apply (f_equal String.length) in H. cbn in H.
    rewrite append_length in H. lia.
  - cbn in H. injection H as -> H. f_equal. apply IH. assumption.
Qed.

(** X19: the file a sample is rendered to is named after its task type
    alone: two samples are rendered to the same file exactly when their task
    types are equal, so that in a run the later one overwrites the earlier. *)
Theorem save_name_collision (item1 item2 : sample) :
  save_name item1 = save_name item2
  <-> item_task_type item1 = item_task_type item2.
Proof.
  unfold save_name. split.
  - intros H. cbn in H. injection H as H. apply append_inj_r in H. exact H.
  - intros ->. reflexivity.
Qed.

Lemma save_name_collision_witness :
  save_name bbox_cat = save_name unreachable_sample.
Proof. apply save_name_collision. reflexivity. Defined.

(** ** The text of a value *)

Lemma round_ratio_number s n d :
  numeric (VFloat (Float.round_ratio s n d)) = true
  \/ exists s', Float.round_ratio s n d = S754_infinity s'.
Proof.
  unfold Float.round_ratio.
  destruct (n =? 0); [left; reflexivity|].
  destruct (if _ =? _ then _ else _) as [m e].
  destruct m; [left; reflexivity| |left; reflexivity].
  destruct (e <=? Float.etop); [left; reflexivity|right; eauto].
Qed.

Lemma round3_div_numeric c w v :
  round3_div c w = Ok v -> numeric v = true.
Proof.
  unfold round3_div, truediv. destruct c as [x|l]; [|discriminate].
  unfold Float.int_truediv. destruct (w =? 0); [discriminate|].
  destruct (round_ratio_number (xorb (x <? 0) (w <? 0)) (Z.abs x) (Z.abs w))
    as [Hq|[s' Hq]]; rewrite ?Hq; [|discriminate].
  destruct (Float.round_ratio _ _ _) as [z|z| |z m e]; try discriminate;
    cbn [bind Float.py_round].
  - intros H. injection H as <-. reflexivity.
  - change (323 <? 3) with false. change (3 <? -308) with false. cbv iota.
    match goal with
    | |- context [Float.round_ratio ?a ?b ?c] =>
        destruct (round_ratio_number a b c) as [Hr|[s' Hr]]; rewrite ?Hr;
        [|discriminate];
        destruct (Float.round_ratio a b c); try discriminate
    end;
      cbn [bind]; intros H; injection H as <-; reflexivity.
Qed.

Lemma comprehension_numeric w h ps out :
  comprehension
    (fun p =>
       p0 <- getitem p 0 ;;
       x1 <- round3_div p0 w ;;
       p1 <- getitem p 1 ;;
       y1 <- round3_div p1 h ;;
       Ok (VList [x1; y1])) ps = Ok out ->
  forallb numeric out = true.
Proof.
  revert out. induction ps as [|p ps IH]; intros out H.
  - injection H as <-. reflexivity.
  - cbn [comprehension] in H.
    destruct (getitem p 0) as [p0|]; cbn [bind] in H; [|discriminate].
    destruct (round3_div p0 w) as [a|] eqn:Ea; cbn [bind] in H;
      [|discriminate].
    destruct (getitem p 1) as [p1|]; cbn [bind] in H; [|discriminate].
    destruct (round3_div p1 h) as [b|] eqn:Eb; cbn [bind] in H;
      [|discriminate].
    destruct (comprehension _ ps) as [o|]; cbn [bind] in H; [|discriminate].
    injection H as <-. cbn [forallb numeric].
    rewrite (round3_div_numeric _ _ _ Ea), (round3_div_numeric _ _ _ Eb),
      (IH o eq_refl).
    reflexivity.
Qed.

Lemma str_dumps : forall v, numeric v = true -> str v = dumps (value_json v).
Proof.
  fix IH 1. intros [|f|l] H; cbn [numeric] in H.
  - discriminate.
  - destruct f; try discriminate; reflexivity.
  - cbn [str value_json dumps]. do 2 f_equal.
    induction l as [|v l IHl]; [reflexivity|].
    cbn [forallb] in H. apply andb_true_iff in H as [Hv Hl].
    cbn [map join]. rewrite <- (IH v Hv), (IHl Hl).
    destruct l; reflexivity.
Qed.

(** X20: for a payload of ints, as the coordinates of [REAL_SAMPLES] are,
    and one of the three kinds, what [normalize_coords] returns holds finite
    numbers only (no [None], no infinity, no NaN: a quotient of ints beyond
    the floats raises), and its text in the response, [str], is character for
    character its JSON encoding in the record. *)
Theorem normalized_text_is_json (coords : raw) (w h : Z) (type : string)
  (v : value) :
  String.eqb type "bbox" || String.eqb type "point"
  || String.eqb type "trajectory" = true ->
  normalize_coords coords w h type = Ok v ->
  numeric v = true /\ str v = dumps (value_json v).
Proof.
  intros Ht H.
  enough (numeric v = true)
    by (split; [assumption|apply str_dumps; assumption]).
  revert Ht H. unfold normalize_coords.
  destruct (String.eqb type "bbox").
  { intros _. destruct coords as [|[|x [|y [|bw [|bh [|]]]]]];
      try discriminate.
    destruct (round3_div x w) as [a|] eqn:Ea; cbn [bind]; [|discriminate].
    destruct (round3_div y h) as [b|] eqn:Eb; cbn [bind]; [|discriminate].
    destruct (add x bw) as [xr|]; cbn [bind]; [|discriminate].
    destruct (round3_div xr w) as [c|] eqn:Ec; cbn [bind]; [|discriminate].
    destruct (add y bh) as [yb|]; cbn [bind]; [|discriminate].
    destruct (round3_div yb h) as [d|] eqn:Ed; cbn [bind]; [|discriminate].
    intros H. injection H as <-. cbn [numeric forallb].
    rewrite (round3_div_numeric _ _ _ Ea), (round3_div_numeric _ _ _ Eb),
      (round3_div_numeric _ _ _ Ec), (round3_div_numeric _ _ _ Ed).
    reflexivity. }
  destruct (String.eqb type "point").
  { intros _.
    destruct (getitem coords 0) as [c0|]; cbn [bind]; [|discriminate].
    destruct (round3_div c0 w) as [a|] eqn:Ea; cbn [bind]; [|discriminate].
    destruct (getitem coords 1) as [c1|]; cbn [bind]; [|discriminate].
    destruct (round3_div c1 h) as [b|] eqn:Eb; cbn [bind]; [|discriminate].
    intros H. injection H as <-. cbn [numeric forallb].
    rewrite (round3_div_numeric _ _ _ Ea), (round3_div_numeric _ _ _ Eb).
    reflexivity. }
  destruct (String.eqb type "trajectory"); [|discriminate].
  intros _. destruct coords as [|ps]; [discriminate|].
  destruct (comprehension _ ps) as [out|] eqn:Ec; cbn [bind]; [|discriminate].
  intros H. injection H as <-. cbn [numeric].
  eapply comprehension_numeric. eassumption.
Qed.

Lemma normalized_text_is_json_witness :
  numeric (VList [VFloat (Float.lit 915 3); VFloat (Float.lit 404 3)]) = true
  /\ str (VList [VFloat (Float.lit 915 3); VFloat (Float.lit 404 3)])
     = dumps (value_json
                (VList [VFloat (Float.lit 915 3); VFloat (Float.lit 404 3)])).
Proof.
  apply (normalized_text_is_json (point_payload (343, 202)) 375 500 "point");
    vm_compute; reflexivity.
Defined.

(** ** Lines of printable characters *)

Lemma all_chars_app P a b :
  all_chars P (String.append a b) = all_chars P a && all_chars P b.
Proof.
  induction a as [|c a IH]; [reflexivity|].
  cbn [String.append all_chars]. rewrite IH, andb_assoc. reflexivity.
Qed.

Lemma printable_join l :
  forallb (all_chars printable) l = true ->
  all_chars printable (join l) = true.
Proof.
  induction l as [|x l IH]; [reflexivity|].
  cbn [forallb join]. intros H. apply andb_true_iff in H as [Hx Hl].
  destruct l as [|y l]; [assumption|].
  rewrite !all_chars_app, Hx, (IH Hl). reflexivity.
Qed.

Lemma printable_zeros n : all_chars printable (Repr.zeros n) = true.
Proof. induction n as [|n IH]; [reflexivity|exact IH]. Qed.

Lemma printable_drop n s :
  all_chars printable s = true -> all_chars printable (Repr.drop n s) = true.
Proof.
  revert s. induction n as [|n IH]; intros [|c s] H; cbn; auto.
  cbn in H. apply andb_true_iff in H as [_ H]. auto.
Qed.

Lemma printable_take n s :
  all_chars printable s = true -> all_chars printable (Repr.take n s) = true.
Proof.
  revert s. induction n as [|n IH]; intros [|c s] H; cbn; auto.
  cbn in H. apply andb_true_iff in H as [Hc H].
  cbn [all_chars]. rewrite Hc. cbn. auto.
Qed.

Lemma printable_uint d :
  all_chars printable (NilEmpty.string_of_uint d) = true.
Proof.
  induction d; cbn [NilEmpty.string_of_uint all_chars]; rewrite ?IHd;
    reflexivity.
Qed.

Lemma printable_int_repr x : all_chars printable (Repr.int_repr x) = true.
Proof.
  unfold Repr.int_repr, NilZero.string_of_int, NilZero.string_of_uint.
  destruct (Z.to_int x) as [d|d]; destruct d;
    cbn [NilEmpty.string_of_uint all_chars];
    rewrite ?printable_uint; reflexivity.
Qed.

Lemma printable_encode_char c : all_chars printable (encode_char c) = true.
Proof.
  destruct c as [[] [] [] [] [] [] [] []]; vm_compute; reflexivity.
Qed.

Lemma printable_encode_string s :
  all_chars printable (encode_string s) = true.
Proof.
  unfold encode_string. cbn [all_chars]. rewrite all_chars_app.
  replace (all_chars printable (encode_chars s)) with true; [reflexivity|].
  induction s as [|c s IH]; [reflexivity|].
  cbn [encode_chars]. rewrite all_chars_app, printable_encode_char, <- IH.
  reflexivity.
Qed.

Lemma printable_float_repr f :
  all_chars printable (Repr.float_repr f) = true.
Proof.
  destruct f as [[]|[]| |s m e]; try reflexivity.
  unfold Repr.float_repr.
  destruct (Repr.float_digits m e) as [ds decpt] eqn:E.
  assert (Hds : all_chars printable ds = true).
  { unfold Repr.float_digits in E.
    destruct (Repr.shortest _ _ _ _ _ _ _ _ _) as [c p].
    destruct (Repr.strip _ _ _) as [c' p'].
    injection E as <- _. apply printable_int_repr. }
  assert (Hexp : forall x, all_chars printable (Repr.exponent_repr x) = true).
  { intros x. unfold Repr.exponent_repr.
    rewrite all_chars_app.
    destruct (x <? 0); destruct (_ <? _)%nat;
      rewrite ?all_chars_app, printable_int_repr; reflexivity. }
  repeat match goal with
         | |- context [if ?b then _ else _] => destruct b
         end;
    rewrite ?all_chars_app, ?printable_zeros, ?Hexp, ?Hds,
      ?printable_take, ?printable_drop by assumption; reflexivity.
Qed.

Lemma printable_encode_float f :
  all_chars printable (encode_float f) = true.
Proof.
  destruct f as [z|[]| |s m e]; try reflexivity;
    apply printable_float_repr.
Qed.

Lemma printable_dumps : forall j, all_chars printable (dumps j) = true.
Proof.
  fix IH 1. intros [|x|f|s|l|members]; cbn [dumps].
  - reflexivity.
  - apply printable_int_repr.
  - apply printable_encode_float.
  - apply printable_encode_string.
  - rewrite !all_chars_app, printable_join; [reflexivity|].
    induction l as [|j l IHl]; [reflexivity|].
    cbn [map forallb]. rewrite IH, IHl. reflexivity.
  - rewrite !all_chars_app, printable_join; [reflexivity|].
    induction members as [|[k j] members IHm]; [reflexivity|].
    cbn [map forallb fst snd].
    rewrite !all_chars_app, printable_encode_string, IH, IHm. reflexivity.
Qed.

(** X21: the file of a completed run is plain ASCII, whatever characters the
    ids, labels, urls and instructions of the samples hold: each of its
    characters is printable, from the space to the tilde, or is the newline
    that ends a line. *)
Theorem run_file_ascii
  (download_image : string -> option image) (render : renderer)
  (items : list sample)
  (out : output) :
  run download_image render items = Ok out ->
  all_chars (fun c => printable c || Ascii.eqb c newline) (file out) = true.
Proof.
  unfold run. intros H.
  destruct (loop download_image render initial items) as [st|]; cbn [bind] in H;
    [|discriminate].
  injection H as <-. cbn [file].
  induction (unified_data st) as [|d ds IH]; [reflexivity|].
  cbn [jsonl]. rewrite !all_chars_app, IH.
  replace (all_chars (fun c => printable c || Ascii.eqb c newline)
             (dumps (entry_json d))) with true; [reflexivity|].
  pose proof (printable_dumps (entry_json d)) as Hp.
  induction (dumps (entry_json d)) as [|c s IHs]; [reflexivity|].
  cbn [all_chars] in Hp |- *. apply andb_true_iff in Hp as [Hc Hs].
  rewrite Hc, <- (IHs Hs). reflexivity.
Qed.

Lemma run_file_ascii_witness :
  all_chars (fun c => printable c || Ascii.eqb c newline)
    (file example_output) = true.
Proof.
  apply (run_file_ascii example_download example_render
           (unreachable_sample :: REAL_SAMPLES) example_output).
  vm_compute. reflexivity.
Defined.
